(** * Command handlers of the Modmail cog (cogs/modmail.py)

    A shallow embedding of the handlers of [class Modmail] that read and
    write the bot's configuration: the snippet commands, the notification
    and subscription commands, [contact], [blocked], [blocked whitelist],
    [block], [unblock] and the three DM switches; and, further down,
    [snippet], [isenable], [find_linked_message], [edit], [delete],
    [logs delete], [move], [format_log_embeds] and [logs].

    Python values are modelled as follows.
    - [str] is [string]; one character of the model is one character of
      the Python string, and [len] is [String.length].
    - A [dict] that is only looked up, written and popped is a [gmap];
      [blocked_users], which [blocked] iterates in insertion order, is an
      association list.
    - A handler is a computation over the bot's state that either returns
      or raises; what it wrote before raising stays written. *)

From Stdlib Require Import ZArith Lia String Ascii List.
From stdpp Require Import base option list strings gmap pretty sorting.

Local Open Scope string_scope.
Local Open Scope Z_scope.

(** ** Exceptions *)

Inductive exn : Type :=
  | UnboundLocalError (name : string)
  | NameError (name : string)
  | KeyError (key : string)
  | IndexError
  | ValueError
  | AttributeError (attr : string)
  | TypeError
  | BadArgument (msg : string)
  | MissingRequiredArgument (param : string).

(** ** Strings *)

Module Str.

(** [c in s] for a one-character [c]. *)
Fixpoint contains_char (c : ascii) (s : string) : bool :=
  match s with
  | EmptyString => false
  | String d s' => if Ascii.eqb c d then true else contains_char c s'
  end.

(** [s.lstrip(c)] for a one-character [c]. *)
Fixpoint lstrip_char (c : ascii) (s : string) : string :=
  match s with
  | EmptyString => EmptyString
  | String d s' => if Ascii.eqb c d then lstrip_char c s' else s
  end.

(** [s.rstrip(c)] for a one-character [c]. *)
Definition rstrip_char (c : ascii) (s : string) : string :=
  String.rev (lstrip_char c (String.rev s)).

(** [str.isspace] on one character, for the characters below 256. *)
Definition isspace (c : ascii) : bool :=
  let n := nat_of_ascii c in
  ((9 <=? n) && (n <=? 13) || (28 <=? n) && (n <=? 32)
   || (n =? 133) || (n =? 160))%nat.

Fixpoint lstrip (s : string) : string :=
  match s with
  | EmptyString => EmptyString
  | String d s' => if isspace d then lstrip s' else s
  end.

(** [s.strip()] *)
Definition strip (s : string) : string :=
  String.rev (lstrip (String.rev (lstrip s))).

(** [s.startswith(p)] *)
Definition startswith (p s : string) : bool := String.prefix p s.

(** [s[n:]] *)
Fixpoint drop (n : nat) (s : string) : string :=
  match n, s with
  | O, _ => s
  | S _, EmptyString => EmptyString
  | S n', String _ s' => drop n' s'
  end.

(** [x or d] on strings: the empty string is false. *)
Definition or_else (x d : string) : string :=
  match x with EmptyString => d | _ => x end.

(** [bool(x)] *)
Definition truthy (x : string) : bool :=
  match x with EmptyString => false | _ => true end.

(** [x in l] on a list of strings. *)
Fixpoint inb (x : string) (l : list string) : bool :=
  match l with
  | [] => false
  | y :: l' => if String.eqb x y then true else inb x l'
  end.

(** [l.remove(x)]: drops the first occurrence. The handlers call it
    only after [x in l]. *)
Fixpoint remove_first (x : string) (l : list string) : list string :=
  match l with
  | [] => []
  | y :: l' => if String.eqb x y then l' else y :: remove_first x l'
  end.

(** [str(n)] for an integer. *)
Definition of_int (n : Z) : string := pretty n.

Arguments of_int : simpl never.
Arguments strip : simpl never.
Arguments rstrip_char : simpl never.
Arguments drop : simpl never.
Arguments startswith : simpl never.

End Str.

(** ** [str.format] with keyword arguments

    The replacement fields of the templates of this file are plain names
    and dotted names; conversions and format specifications do not occur. *)

Module Format.

Definition kwargs := list (string * string).

Fixpoint lookup_kw (k : string) (kw : kwargs) : option string :=
  match kw with
  | [] => None
  | (k', v) :: kw' => if String.eqb k k' then Some v else lookup_kw k kw'
  end.

(** Splits a field name at the first [.] or [[]: the head names the
    argument, the rest is an attribute or index path. *)
Fixpoint split_field (f : string) : string * string :=
  match f with
  | EmptyString => (EmptyString, EmptyString)
  | String c f' =>
      if (Ascii.eqb c "." || Ascii.eqb c "[")%bool then (EmptyString, f)
      else let '(h, r) := split_field f' in (String c h, r)
  end.

Definition is_digit (c : ascii) : bool :=
  match c with
  | "0" | "1" | "2" | "3" | "4" | "5" | "6" | "7" | "8" | "9" => true
  | _ => false
  end%char.

Fixpoint all_digits (s : string) : bool :=
  match s with
  | EmptyString => true
  | String c s' => is_digit c && all_digits s'
  end.

(** The value of one replacement field. An empty or numeric head is a
    positional argument, and no handler passes one; a missing keyword is
    a [KeyError]; a path after the head reads an attribute or an item of
    a [str] value. *)
Definition field_value (f : string) (kw : kwargs) : exn + string :=
  let '(h, r) := split_field f in
  if all_digits h then inl IndexError
  else match lookup_kw h kw with
       | None => inl (KeyError h)
       | Some v =>
           match r with
           | EmptyString => inr v
           | String "." a => inl (AttributeError a)
           | String _ _ => inl TypeError
           end
       end.

Fixpoint snoc (s : string) (c : ascii) : string :=
  match s with
  | EmptyString => String c EmptyString
  | String d s' => String d (snoc s' c)
  end.

(** [go tpl fld]: [fld] is [None] outside a replacement field and the
    characters of the field read so far inside one. *)
Fixpoint go (tpl : string) (fld : option string) (kw : kwargs)
  : exn + string :=
  match fld, tpl with
  | None, EmptyString => inr EmptyString
  | None, String "{" (String "{" rest) =>
      match go rest None kw with
      | inr s => inr (String "{" s)
      | inl e => inl e
      end
  | None, String "{" rest => go rest (Some EmptyString) kw
  | None, String "}" (String "}" rest) =>
      match go rest None kw with
      | inr s => inr (String "}" s)
      | inl e => inl e
      end
  | None, String "}" _ => inl ValueError
  | None, String c rest =>
      match go rest None kw with
      | inr s => inr (String c s)
      | inl e => inl e
      end
  | Some _, EmptyString => inl ValueError
  | Some f, String "}" rest =>
      match field_value f kw with
      | inl e => inl e
      | inr v =>
          match go rest None kw with
          | inr s => inr (v +:+ s)
          | inl e => inl e
          end
      end
  | Some _, String "{" _ => inl ValueError
  | Some f, String c rest => go rest (Some (snoc f c)) kw
  end.

Definition format (tpl : string) (kw : kwargs) : exn + string :=
  go tpl None kw.

End Format.

(** ** Name resolution

    A name that a function body assigns anywhere is local to the whole
    body: reading it before the assignment raises [UnboundLocalError]. Any
    other name is looked up among the names of the module and the builtins;
    a name bound in neither raises [NameError]. *)

(** Modelled from the spec: the translation function [_] belongs to the
    surrounding framework, which installs it among the builtins; this file
    only calls it. It is modelled as the catalogue of the source language,
    which returns every message as written. *)
Definition gettext (msg : string) : string := msg.

Module Scope.

Record frame := Frame { locals : list string; bound : list string }.

(** The assignment [x = ...] *)
Definition assign (x : string) (fr : frame) : frame :=
  Frame (locals fr) (x :: bound fr).

(** The callables on strings reachable from the module: the file binds
    none itself, the framework installs [_]. *)
Definition installed : list (string * (string -> string)) :=
  [("_", gettext)].

Fixpoint lookup_callable (x : string)
    (tbl : list (string * (string -> string))) : option (string -> string) :=
  match tbl with
  | [] => None
  | (y, f) :: tbl' => if String.eqb x y then Some f else lookup_callable x tbl'
  end.

(** The call [x(arg)]. A local that is bound holds what the handler
    assigned to it, which in this file is never a function. *)
Definition call (fr : frame) (x : string) (arg : string) : exn + string :=
  if Str.inb x (locals fr) then
    if Str.inb x (bound fr) then inl TypeError
    else inl (UnboundLocalError x)
  else match lookup_callable x installed with
       | Some f => inr (f arg)
       | None => inl (NameError x)
       end.

End Scope.

(** ** Data *)

(** A [discord.Member] or [discord.User]. *)
Record Member := {
  m_id : Z;
  m_name : string;
  m_discriminator : string;
  m_mention : string;
  m_bot : bool }.

(** What the [User] converter yields: a member or user, or a bare object
    that has an id and neither [mention] nor [name]. *)
Record UserLike := {
  u_id : Z;
  u_mention : option string;
  u_name : option string;
  u_str : string }.

Definition of_member (m : Member) : UserLike :=
  {| u_id := m_id m; u_mention := Some (m_mention m);
     u_name := Some (m_name m);
     u_str := m_name m +:+ "#" +:+ m_discriminator m |}.

Record Role := { r_name : string; r_mention : string }.

(** The argument of the notification commands once converted:
    [Union[discord.Role, User, str.lower, None]]. *)
Inductive Mentionable :=
  | ARole (r : Role)
  | AUser (u : UserLike)
  | AStr (s : string).

(** A thread, as far as the handlers read it. [th_id] is [thread.id] and
    [th_channel_mention] is [thread.channel.mention]. *)
Record Thread := {
  th_id : Z;
  th_recipient : Member;
  th_creator : Member;
  th_category : option Z;
  th_channel_mention : string }.

Record Ctx := {
  author : Member;
  ctx_thread : option Thread }.

(** [UserFriendlyTime]: the rest of the argument, the parsed time and the
    time of the command, with the ISO rendering of the parsed time. *)
Record After := {
  arg : string;
  dt : Z;
  now : Z;
  dt_isoformat : string }.

Inductive colour := main_color | error_color.

Record Embed := {
  title : option string;
  color : colour;
  description : string;
  footer : option string }.

(** What a handler hands to [ctx.send]: an embed it built, or the embed of
    [create_not_found_embed(word, possibilities, name)]. *)
Inductive Sendable :=
  | Built (e : Embed)
  | NotFoundEmbed (word : string) (possibilities : gset string) (kind : string).

Inductive Channel := CtxChannel | ThreadChannel (thread : Z).

Inductive Event :=
  | Send (ch : Channel) (e : Sendable)
  | SendHelp
  | Paginate (embeds : list Embed)
  | AddReaction
  | Sleep
  | DeleteMessage.

(** The configuration entries the handlers touch. [self.bot.snippets],
    [self.bot.aliases], [self.bot.blocked_users] and
    [self.bot.blocked_whitelisted_users] are the bot's views of its
    configuration. *)
Record Config := {
  snippets : gmap string string;
  aliases : gmap string string;
  notification_squad : gmap string (list string);
  subscriptions : gmap string (list string);
  blocked_users : list (string * string);
  blocked_whitelisted_users : list string;
  dm_disabled : Z }.

(** The bot: its configuration in memory, what [config.update()] last
    wrote, its command prefix, the open threads, the mention of the channel
    the guild gives to the thread of a user id, the users the cache and the
    API know (by id, with their mention), and what the handlers did to the
    outside, latest last. *)
Record World := {
  config : Config;
  saved : Config;
  prefix : string;
  threads : list Thread;
  channel_for : Z -> string;
  user_cache : gmap Z string;
  user_api : gmap Z string;
  trace : list Event }.

Definition with_config (c : Config) (w : World) : World :=
  {| config := c; saved := saved w; prefix := prefix w;
     threads := threads w; channel_for := channel_for w;
     user_cache := user_cache w;
     user_api := user_api w; trace := trace w |}.

Definition with_saved (c : Config) (w : World) : World :=
  {| config := config w; saved := c; prefix := prefix w;
     threads := threads w; channel_for := channel_for w;
     user_cache := user_cache w;
     user_api := user_api w; trace := trace w |}.

Definition with_threads (l : list Thread) (w : World) : World :=
  {| config := config w; saved := saved w; prefix := prefix w;
     threads := l; channel_for := channel_for w;
     user_cache := user_cache w;
     user_api := user_api w; trace := trace w |}.

Definition with_trace (l : list Event) (w : World) : World :=
  {| config := config w; saved := saved w; prefix := prefix w;
     threads := threads w; channel_for := channel_for w;
     user_cache := user_cache w;
     user_api := user_api w; trace := l |}.

Definition set_snippets (m : gmap string string) (c : Config) : Config :=
  {| snippets := m; aliases := aliases c;
     notification_squad := notification_squad c;
     subscriptions := subscriptions c; blocked_users := blocked_users c;
     blocked_whitelisted_users := blocked_whitelisted_users c;
     dm_disabled := dm_disabled c |}.

Definition set_notification_squad (m : gmap string (list string))
    (c : Config) : Config :=
  {| snippets := snippets c; aliases := aliases c;
     notification_squad := m;
     subscriptions := subscriptions c; blocked_users := blocked_users c;
     blocked_whitelisted_users := blocked_whitelisted_users c;
     dm_disabled := dm_disabled c |}.

Definition set_subscriptions (m : gmap string (list string))
    (c : Config) : Config :=
  {| snippets := snippets c; aliases := aliases c;
     notification_squad := notification_squad c;
     subscriptions := m; blocked_users := blocked_users c;
     blocked_whitelisted_users := blocked_whitelisted_users c;
     dm_disabled := dm_disabled c |}.

Definition set_blocked_users (l : list (string * string))
    (c : Config) : Config :=
  {| snippets := snippets c; aliases := aliases c;
     notification_squad := notification_squad c;
     subscriptions := subscriptions c; blocked_users := l;
     blocked_whitelisted_users := blocked_whitelisted_users c;
     dm_disabled := dm_disabled c |}.

Definition set_blocked_whitelisted_users (l : list string)
    (c : Config) : Config :=
  {| snippets := snippets c; aliases := aliases c;
     notification_squad := notification_squad c;
     subscriptions := subscriptions c; blocked_users := blocked_users c;
     blocked_whitelisted_users := l;
     dm_disabled := dm_disabled c |}.

Definition set_dm_disabled (v : Z) (c : Config) : Config :=
  {| snippets := snippets c; aliases := aliases c;
     notification_squad := notification_squad c;
     subscriptions := subscriptions c; blocked_users := blocked_users c;
     blocked_whitelisted_users := blocked_whitelisted_users c;
     dm_disabled := v |}.

(** ** An insertion-ordered [dict] with string keys *)

Module Dict.

Definition t := list (string * string).

(** [k in d] *)
Fixpoint mem (k : string) (d : t) : bool :=
  match d with
  | [] => false
  | (k', _) :: d' => if String.eqb k k' then true else mem k d'
  end.

(** [d.get(k)] *)
Fixpoint get (k : string) (d : t) : option string :=
  match d with
  | [] => None
  | (k', v) :: d' => if String.eqb k k' then Some v else get k d'
  end.

(** [d[k] = v]: a key already there keeps its place. *)
Fixpoint set (k v : string) (d : t) : t :=
  match d with
  | [] => [(k, v)]
  | (k', v') :: d' =>
      if String.eqb k k' then (k', v) :: d' else (k', v') :: set k v d'
  end.

(** [d.pop(k)], called only after [k in d]. A [dict] holds one entry per
    key; no entry under [k] is left. *)
Fixpoint pop (k : string) (d : t) : t :=
  match d with
  | [] => []
  | (k', v') :: d' =>
      if String.eqb k k' then pop k d' else (k', v') :: pop k d'
  end.

Definition keys (d : t) : list string := map fst d.

End Dict.

(** ** Handlers as computations *)

Definition M (A : Type) : Type := World -> (exn + A) * World.

Definition ret {A} (a : A) : M A := fun w => (inr a, w).

Definition bind {A B} (m : M A) (k : A -> M B) : M B :=
  fun w => match m w with
           | (inl e, w') => (inl e, w')
           | (inr a, w') => k a w'
           end.

Definition raise {A} (e : exn) : M A := fun w => (inl e, w).

Definition lift {A} (r : exn + A) : M A := fun w => (r, w).

Declare Scope py_scope.
Delimit Scope py_scope with py.
Notation "x <- c1 ;; c2" := (bind c1 (fun x => c2))
  (at level 20, c1 at level 99, c2 at level 200, only parsing) : py_scope.
Notation "c1 ;; c2" := (bind c1 (fun _ => c2))
  (at level 100, c2 at level 200, only parsing, right associativity) : py_scope.
Local Open Scope py_scope.

Definition get_config : M Config := fun w => (inr (config w), w).

Definition put_config (c : Config) : M unit :=
  fun w => (inr tt, with_config c w).

(** [self.bot.prefix] *)
Definition get_prefix : M string := fun w => (inr (prefix w), w).

(** [await self.bot.config.update()] *)
Definition config_update : M unit :=
  fun w => (inr tt, with_saved (config w) w).

Definition emit (ev : Event) : M unit :=
  fun w => (inr tt, with_trace (trace w ++ [ev])%list w).

(** [await ctx.send(embed=embed)] *)
Definition ctx_send (e : Sendable) : M unit := emit (Send CtxChannel e).

(** [_(msg)] and [_(msg).format(...)] with the keywords [kw], in the frame
    [fr] *)
Definition tr (fr : Scope.frame) (msg : string) : M string :=
  lift (Scope.call fr "_" msg).

Definition trf (fr : Scope.frame) (msg : string) (kw : Format.kwargs)
  : M string :=
  tpl <- tr fr msg ;; lift (Format.format tpl kw).

Definition has_key {V} (k : string) (m : gmap string V) : bool :=
  match m !! k with Some _ => true | None => false end.

(** The double quote, as a string. *)
Definition dq : string := String "034"%char EmptyString.

Definition newline : string := String "010"%char EmptyString.

(** The messages that hold a double quote or a line break. *)
Definition msg_edited : string :=
  Eval cbv in "`{name}` will now send " +:+ dq +:+ "{value}" +:+ dq +:+ ".".

Definition msg_whitelisted_internal : string :=
  Eval cbv in
    "{mention} was previously blocked internally for " +:+ dq +:+ "{reason}"
    +:+ dq +:+ ". {mention} is now whitelisted.".

Definition msg_blocked_again : string :=
  Eval cbv in
    "{mention} was previously blocked {old_reason}." +:+ newline
    +:+ "{mention} is now blocked {reason}".

Definition msg_unblocked_internal : string :=
  Eval cbv in
    "{mention} was previously blocked internally {reason}." +:+ newline
    +:+ "{mention} is no longer blocked.".

Definition msg_unblocked_footer : string :=
  Eval cbv in
    "However, if the original system block reason still applies, "
    +:+ "{name} will be automatically blocked again. Use " +:+ dq
    +:+ "{self.bot.prefix}blocked whitelist {user.id}" +:+ dq
    +:+ " to whitelist the user.".

(** ** The snippet commands *)

Definition mk_embed (t : option string) (c : colour) (d : string) : Embed :=
  {| title := t; color := c; description := d; footer := None |}.

Definition snippet_add_frame : Scope.frame :=
  Scope.Frame ["self"; "ctx"; "name"; "value"; "embed"]
              ["self"; "ctx"; "name"; "value"].

Definition snippet_add (name value : string) : M unit :=
  let fr := snippet_add_frame in
  c <- get_config ;;
  if has_key name (snippets c) then
    t <- tr fr "Error" ;;
    d <- trf fr "Snippet `{name}` already exists." [("name", name)] ;;
    ctx_send (Built (mk_embed (Some t) error_color d))
  else if has_key name (aliases c) then
    t <- tr fr "Error" ;;
    d <- trf fr "An alias with the same name already exists: `{name}`."
             [("name", name)] ;;
    ctx_send (Built (mk_embed (Some t) error_color d))
  else if (120 <? String.length name)%nat then
    t <- tr fr "Error" ;;
    d <- tr fr "Snippet names cannot be longer than 120 characters." ;;
    ctx_send (Built (mk_embed (Some t) error_color d))
  else
    put_config (set_snippets (<[name := value]> (snippets c)) c) ;;
    config_update ;;
    ctx_send (Built (mk_embed (Some "Added snippet") main_color
                              "Successfully created snippet.")).

Definition snippet_remove_frame : Scope.frame :=
  Scope.Frame ["self"; "ctx"; "name"; "embed"] ["self"; "ctx"; "name"].

Definition snippet_remove (name : string) : M unit :=
  let fr := snippet_remove_frame in
  c <- get_config ;;
  embed <-
    (if has_key name (snippets c) then
       t <- tr fr "Removed snippet" ;;
       d <- trf fr "Snippet `{name}` is now deleted." [("name", name)] ;;
       put_config (set_snippets (delete name (snippets c)) c) ;;
       config_update ;;
       ret (Built (mk_embed (Some t) main_color d))
     else
       ret (NotFoundEmbed name (dom (snippets c)) "Snippet")) ;;
  ctx_send embed.

Definition snippet_edit_frame : Scope.frame :=
  Scope.Frame ["self"; "ctx"; "name"; "value"; "embed"]
              ["self"; "ctx"; "name"; "value"].

Definition snippet_edit (name value : string) : M unit :=
  let fr := snippet_edit_frame in
  c <- get_config ;;
  embed <-
    (if has_key name (snippets c) then
       put_config (set_snippets (<[name := value]> (snippets c)) c) ;;
       config_update ;;
       t <- tr fr "Edited snippet" ;;
       d <- lift (Scope.call fr "f_" msg_edited) ;;
       ret (Built (mk_embed (Some t) main_color d))
     else
       ret (NotFoundEmbed name (dom (snippets c)) "Snippet")) ;;
  ctx_send embed.

(** ** The notification and subscription commands *)

(** [user_or_role.mention] where [hasattr(user_or_role, "mention")] *)
Definition mention_attr (a : Mentionable) : option string :=
  match a with
  | ARole r => Some (r_mention r)
  | AUser u => u_mention u
  | AStr _ => None
  end.

(** [str(user_or_role)] *)
Definition str_of_arg (a : option Mentionable) : string :=
  match a with
  | None => "None"
  | Some (ARole r) => r_name r
  | Some (AUser u) => u_str u
  | Some (AStr s) => s
  end.

Definition parse_user_or_role (ctx : Ctx) (user_or_role : option Mentionable)
  : option string :=
  match user_or_role with
  | None => Some (m_mention (author ctx))
  | Some a =>
      match mention_attr a with
      | Some m => Some m
      | None =>
          match a with
          | AStr s =>
              if Str.inb s ["here"; "everyone"; "@here"; "@everyone"]
              then Some ("@" +:+ Str.lstrip_char "@" s)
              else None
          | _ => None
          end
      end
  end.

(** [thread = ctx.thread] followed by [thread.id] *)
Definition thread_id (ctx : Ctx) : M Z :=
  match ctx_thread ctx with
  | Some t => ret (th_id t)
  | None => raise (AttributeError "id")
  end.

(** [d[key]] *)
Definition getitem {V} (key : string) (d : gmap string V) : M V :=
  match d !! key with
  | Some v => ret v
  | None => raise (KeyError key)
  end.

Definition notify_frame : Scope.frame :=
  Scope.Frame ["self"; "ctx"; "user_or_role"; "mention"; "thread";
               "mentions"; "embed"]
              ["self"; "ctx"; "user_or_role"].

Definition notify (ctx : Ctx) (user_or_role : option Mentionable) : M unit :=
  let fr := notify_frame in
  match parse_user_or_role ctx user_or_role with
  | None =>
      raise (BadArgument (str_of_arg user_or_role +:+ " is not a valid role."))
  | Some mention =>
      tid <- thread_id ctx ;;
      let key := Str.of_int tid in
      c <- get_config ;;
      (if has_key key (notification_squad c) then ret tt
       else put_config
              (set_notification_squad (<[key := []]> (notification_squad c)) c)) ;;
      c <- get_config ;;
      mentions <- getitem key (notification_squad c) ;;
      embed <-
        (if Str.inb mention mentions then
           d <- trf fr "{mention} is already going to be mentioned."
                    [("mention", mention)] ;;
           ret (mk_embed None error_color d)
         else
           put_config
             (set_notification_squad
                (<[key := (mentions ++ [mention])%list]> (notification_squad c)) c) ;;
           config_update ;;
           d <- trf fr "{mention} will be mentioned on the next message received."
                    [("mention", mention)] ;;
           ret (mk_embed None main_color d)) ;;
      ctx_send (Built embed)
  end.

Definition unnotify (ctx : Ctx) (user_or_role : option Mentionable) : M unit :=
  let fr := notify_frame in
  let mention :=
    match parse_user_or_role ctx user_or_role with
    | None => "`" +:+ str_of_arg user_or_role +:+ "`"
    | Some m => m
    end in
  tid <- thread_id ctx ;;
  let key := Str.of_int tid in
  c <- get_config ;;
  (if has_key key (notification_squad c) then ret tt
   else put_config
          (set_notification_squad (<[key := []]> (notification_squad c)) c)) ;;
  c <- get_config ;;
  mentions <- getitem key (notification_squad c) ;;
  embed <-
    (if negb (Str.inb mention mentions) then
       d <- trf fr "{mention} does not have a pending notification."
                [("mention", mention)] ;;
       ret (mk_embed None error_color d)
     else
       put_config
         (set_notification_squad
            (<[key := Str.remove_first mention mentions]> (notification_squad c))
            c) ;;
       config_update ;;
       d <- trf fr "{mention} will no longer be notified."
                [("mention", mention)] ;;
       ret (mk_embed None main_color d)) ;;
  ctx_send (Built embed).

Definition subscribe (ctx : Ctx) (user_or_role : option Mentionable) : M unit :=
  let fr := notify_frame in
  match parse_user_or_role ctx user_or_role with
  | None =>
      raise (BadArgument (str_of_arg user_or_role +:+ " is not a valid role."))
  | Some mention =>
      tid <- thread_id ctx ;;
      let key := Str.of_int tid in
      c <- get_config ;;
      (if has_key key (subscriptions c) then ret tt
       else put_config (set_subscriptions (<[key := []]> (subscriptions c)) c)) ;;
      c <- get_config ;;
      mentions <- getitem key (subscriptions c) ;;
      embed <-
        (if Str.inb mention mentions then
           d <- trf fr "{mention} is already subscribed to this thread."
                    [("mention", mention)] ;;
           ret (mk_embed None error_color d)
         else
           put_config
             (set_subscriptions
                (<[key := (mentions ++ [mention])%list]> (subscriptions c)) c) ;;
           config_update ;;
           d <- trf fr "{mention} will now be notified of all messages received."
                    [("mention", mention)] ;;
           ret (mk_embed None main_color d)) ;;
      ctx_send (Built embed)
  end.

Definition unsubscribe (ctx : Ctx) (user_or_role : option Mentionable)
  : M unit :=
  let fr := notify_frame in
  let mention :=
    match parse_user_or_role ctx user_or_role with
    | None => "`" +:+ str_of_arg user_or_role +:+ "`"
    | Some m => m
    end in
  tid <- thread_id ctx ;;
  let key := Str.of_int tid in
  c <- get_config ;;
  (if has_key key (subscriptions c) then ret tt
   else put_config (set_subscriptions (<[key := []]> (subscriptions c)) c)) ;;
  c <- get_config ;;
  mentions <- getitem key (subscriptions c) ;;
  embed <-
    (if negb (Str.inb mention mentions) then
       d <- trf fr "{mention} is not already subscribed to this thread."
                [("mention", mention)] ;;
       ret (mk_embed None error_color d)
     else
       put_config
         (set_subscriptions
            (<[key := Str.remove_first mention mentions]> (subscriptions c)) c) ;;
       config_update ;;
       d <- trf fr "{mention} is now unsubscribed to this thread."
                [("mention", mention)] ;;
       ret (mk_embed None main_color d)) ;;
  ctx_send (Built embed).

(** ** [contact] *)

(** Modelled from the spec: the thread manager [bot.threads] is not part of
    this file. A thread is the per-user channel of one recipient:
    [find(recipient=user)] yields the open thread of that user, if any, and
    [create(user, creator=..., category=...)] opens one and registers it. *)
Definition threads_find (user : Member) : M (option Thread) :=
  fun w =>
    (inr (List.find (fun t => m_id (th_recipient t) =? m_id user) (threads w)),
     w).

Definition threads_create (user creator : Member) (category : option Z)
  : M Thread :=
  fun w =>
    let t := {| th_id := m_id user; th_recipient := user;
                th_creator := creator; th_category := category;
                th_channel_mention := channel_for w (m_id user) |} in
    (inr t, with_threads (threads w ++ [t])%list w).

(** [contact] assigns [_] in its last branch
    ([sent_emoji, _ = await self.bot.retrieve_emoji()]), so [_] is a local
    of the whole body. *)
Definition contact_frame : Scope.frame :=
  Scope.Frame ["self"; "ctx"; "category"; "user"; "embed"; "exists";
               "thread"; "sent_emoji"; "_"]
              ["self"; "ctx"; "category"; "user"].

Definition contact (ctx : Ctx) (category : option Z) (user : Member)
  : M unit :=
  let fr := contact_frame in
  if m_bot user then
    d <- tr fr "Cannot start a thread with a bot." ;;
    ctx_send (Built (mk_embed None error_color d))
  else
    found <- threads_find user ;;
    let fr := Scope.assign "exists" fr in
    match found with
    | Some t =>
        d <- trf fr "A thread for this user already exists in {mention}."
                 [("mention", th_channel_mention t)] ;;
        emit (Send CtxChannel (Built (mk_embed None error_color d)))
    | None =>
        thread <- threads_create user (author ctx) category ;;
        let fr := Scope.assign "thread" fr in
        t <- tr fr "Created Thread" ;;
        d <- trf fr "Thread started by {author_mention} for {user_mention}."
                 [("author_mention", m_mention (author ctx));
                  ("user_mention", m_mention user)] ;;
        let fr := Scope.assign "embed" fr in
        emit (Send (ThreadChannel (th_id thread))
                   (Built (mk_embed (Some t) main_color d))) ;;
        let fr := Scope.assign "_" (Scope.assign "sent_emoji" fr) in
        emit AddReaction ;;
        emit Sleep ;;
        emit DeleteMessage
    end.

(** ** The DM switches *)

Definition enable_frame : Scope.frame :=
  Scope.Frame ["self"; "ctx"; "embed"] ["self"; "ctx"].

Definition enable : M unit :=
  let fr := enable_frame in
  t <- tr fr "Success" ;;
  d <- tr fr "Modmail will now accept all DM messages." ;;
  c <- get_config ;;
  (if negb (dm_disabled c =? 0) then
     put_config (set_dm_disabled 0 c) ;; config_update
   else ret tt) ;;
  ctx_send (Built (mk_embed (Some t) main_color d)).

Definition disable : M unit :=
  let fr := enable_frame in
  t <- tr fr "Success" ;;
  d <- tr fr "Modmail will not create any new threads." ;;
  c <- get_config ;;
  (if dm_disabled c <? 1 then
     put_config (set_dm_disabled 1 c) ;; config_update
   else ret tt) ;;
  ctx_send (Built (mk_embed (Some t) main_color d)).

Definition disable_all : M unit :=
  let fr := enable_frame in
  t <- tr fr "Success" ;;
  d <- tr fr "Modmail will not accept any DM messages." ;;
  c <- get_config ;;
  (if negb (dm_disabled c =? 2) then
     put_config (set_dm_disabled 2 c) ;; config_update
   else ret tt) ;;
  ctx_send (Built (mk_embed (Some t) main_color d)).

(** ** [blocked] *)

(** [int(s)] on the decimal strings that [str(user.id)] writes; any other
    key raises [ValueError]. *)
Fixpoint digits_value (s : string) (acc : Z) : option Z :=
  match s with
  | EmptyString => Some acc
  | String c s' =>
      if Format.is_digit c
      then digits_value s' (10 * acc + Z.of_nat (nat_of_ascii c) - 48)
      else None
  end.

Definition int_of_str (s : string) : option Z :=
  match s with
  | EmptyString => None
  | String "-" s' =>
      match s' with
      | EmptyString => None
      | _ => Z.opp <$> digits_value s' 0
      end
  | _ => digits_value s 0
  end.

(** One turn of the first loop: [self.bot.get_user(int(id_))], then
    [await self.bot.fetch_user(id_)], then the key itself when the user is
    not found. *)
Definition resolve_user (id_ : string) : M string :=
  match int_of_str id_ with
  | None => raise ValueError
  | Some n =>
      fun w =>
        match user_cache w !! n with
        | Some m => (inr m, w)
        | None =>
            match user_api w !! n with
            | Some m => (inr m, w)
            | None => (inr id_, w)
            end
        end
  end.

Fixpoint resolve_users (items : list (string * string))
  : M (list (string * string)) :=
  match items with
  | [] => ret []
  | (id_, reason) :: items' =>
      m <- resolve_user id_ ;;
      rest <- resolve_users items' ;;
      ret ((m, reason) :: rest)
  end.

Definition blocked_frame : Scope.frame :=
  Scope.Frame ["self"; "ctx"; "embeds"; "users"; "id_"; "reason"; "user";
               "embed"; "mention"; "line"; "session"]
              ["self"; "ctx"].

(** The line of one user:
    [mention + f" - {reason or _('No Reason Provided')}\n"] *)
Definition blocked_line (fr : Scope.frame) (mention reason : string)
  : exn + string :=
  match (if Str.truthy reason then inr reason
         else Scope.call fr "_" "No Reason Provided") with
  | inl e => inl e
  | inr r => inr (mention +:+ " - " +:+ r +:+ newline)
  end.

(** The second loop. [embed] is the last embed of [embeds], the one the
    loop writes to; [earlier] are the embeds before it. *)
Fixpoint fill_embeds (fr : Scope.frame) (users : list (string * string))
    (earlier : list Embed) (embed : Embed) : exn + list Embed :=
  match users with
  | [] => inr (earlier ++ [embed])%list
  | (mention, reason) :: users' =>
      match blocked_line fr mention reason with
      | inl e => inl e
      | inr line =>
          if (2048 <? String.length (description embed) + String.length line)%nat
          then
            match Scope.call fr "_" "Blocked Users" with
            | inl e => inl e
            | inr t1 =>
                match Scope.call fr "_" "(Continued)" with
                | inl e => inl e
                | inr t2 =>
                    fill_embeds fr users' (earlier ++ [embed])%list
                      (mk_embed (Some (t1 +:+ " " +:+ t2)) main_color line)
                end
            end
          else
            fill_embeds fr users' earlier
              {| title := title embed; color := color embed;
                 description := description embed +:+ line;
                 footer := footer embed |}
      end
  end.

Definition blocked : M unit :=
  let fr := blocked_frame in
  t <- tr fr "Blocked Users" ;;
  let first := mk_embed (Some t) main_color EmptyString in
  c <- get_config ;;
  users <- resolve_users (blocked_users c) ;;
  embeds <-
    match users with
    | _ :: _ => lift (fill_embeds fr users [] first)
    | [] =>
        d <- tr fr "Currently there are no blocked users." ;;
        ret [mk_embed (Some t) main_color d]
    end ;;
  emit (Paginate embeds).

(** ** [blocked whitelist], [block] and [unblock] *)

(** [getattr(user, "mention", f"`{user.id}`")] *)
Definition mention_or_id (u : UserLike) : string :=
  match u_mention u with
  | Some m => m
  | None => "`" +:+ Str.of_int (u_id u) +:+ "`"
  end.

(** [getattr(user, "name", f"`{user.id}`")] *)
Definition name_or_id (u : UserLike) : string :=
  match u_name u with
  | Some m => m
  | None => "`" +:+ Str.of_int (u_id u) +:+ "`"
  end.

Definition blocked_whitelist_frame : Scope.frame :=
  Scope.Frame ["self"; "ctx"; "user"; "thread"; "mention"; "msg"; "embed";
               "reason"]
              ["self"; "ctx"; "user"].

Definition blocked_whitelist (ctx : Ctx) (user : option UserLike) : M unit :=
  let fr := blocked_whitelist_frame in
  match (match user with
         | Some u => Some u
         | None => of_member <$> (th_recipient <$> ctx_thread ctx)
         end) with
  | None => emit SendHelp
  | Some user =>
      let mention := mention_or_id user in
      let key := Str.of_int (u_id user) in
      c <- get_config ;;
      if Str.inb key (blocked_whitelisted_users c) then
        t <- tr fr "Success" ;;
        d <- trf fr "{mention} is no longer whitelisted."
                 [("mention", mention)] ;;
        put_config
          (set_blocked_whitelisted_users
             (Str.remove_first key (blocked_whitelisted_users c)) c) ;;
        ctx_send (Built (mk_embed (Some t) main_color d))
      else
        put_config
          (set_blocked_whitelisted_users
             (blocked_whitelisted_users c ++ [key])%list c) ;;
        c <- get_config ;;
        msg <-
          (if Dict.mem key (blocked_users c) then
             let msg := default EmptyString (Dict.get key (blocked_users c)) in
             put_config
               (set_blocked_users (Dict.pop key (blocked_users c)) c) ;;
             ret msg
           else ret EmptyString) ;;
        config_update ;;
        embed <-
          (if Str.startswith "System Message: " msg then
             let reason :=
               Str.rstrip_char "." (Str.strip (Str.drop 16 msg)) in
             d <- trf fr msg_whitelisted_internal
                      [("mention", mention); ("reason", reason)] ;;
             ret (mk_embed (Some "Success") main_color d)
           else
             ret (mk_embed (Some "Success") main_color
                           (mention +:+ " is now whitelisted."))) ;;
        ctx_send (Built embed)
  end.

Definition block_frame : Scope.frame :=
  Scope.Frame ["self"; "ctx"; "user"; "after"; "thread"; "mention"; "embed";
               "reason"; "msg"; "old_reason"]
              ["self"; "ctx"; "user"; "after"].

Section Block.

(** [discord.utils.escape_markdown] *)
Variable escape_markdown : string -> string.

Definition block (ctx : Ctx) (user : option UserLike) (after : option After)
  : M unit :=
  let fr := block_frame in
  user <-
    match user with
    | Some u => ret u
    | None =>
        match ctx_thread ctx with
        | Some thread => ret (of_member (th_recipient thread))
        | None =>
            match after with
            | None => raise (MissingRequiredArgument "user")
            | Some a =>
                raise (BadArgument ("User " +:+ dq +:+ arg a +:+ dq
                                    +:+ " not found"))
            end
        end
    end ;;
  let mention := mention_or_id user in
  let key := Str.of_int (u_id user) in
  c <- get_config ;;
  if Str.inb key (blocked_whitelisted_users c) then
    t <- tr fr "Error" ;;
    d <- trf fr "Cannot block {mention}, user is whitelisted."
             [("mention", mention)] ;;
    ctx_send (Built (mk_embed (Some t) error_color d))
  else
    let reason :=
      "by " +:+ escape_markdown (m_name (author ctx)) +:+ "#"
      +:+ m_discriminator (author ctx) in
    reason <-
      match after with
      | None => ret reason
      | Some a =>
          if Str.contains_char "%" reason then
            raise (BadArgument ("The reason contains illegal character "
                                +:+ dq +:+ "%" +:+ dq +:+ "."))
          else
            let reason :=
              if Str.truthy (arg a)
              then reason +:+ " for `" +:+ arg a +:+ "`" else reason in
            let reason :=
              if now a <? dt a
              then reason +:+ " until " +:+ dt_isoformat a else reason in
            ret reason
      end ;;
    let reason := reason +:+ "." in
    let msg := default EmptyString (Dict.get key (blocked_users c)) in
    embed <-
      (if Dict.mem key (blocked_users c) && Str.truthy msg then
         let old_reason := Str.rstrip_char "." (Str.strip msg) in
         t <- tr fr "Success" ;;
         d <- trf fr msg_blocked_again
                  [("mention", mention); ("old_reason", old_reason);
                   ("reason", reason)] ;;
         ret (mk_embed (Some t) main_color d)
       else
         t <- tr fr "Success" ;;
         d <- trf fr "{mention} is now blocked {reason}"
                  [("mention", mention); ("reason", reason)] ;;
         ret (mk_embed (Some t) main_color d)) ;;
    put_config (set_blocked_users (Dict.set key reason (blocked_users c)) c) ;;
    config_update ;;
    ctx_send (Built embed).

End Block.

Definition unblock_frame : Scope.frame :=
  Scope.Frame ["self"; "ctx"; "user"; "thread"; "mention"; "name"; "msg";
               "reason"; "embed"]
              ["self"; "ctx"; "user"].

Definition unblock (ctx : Ctx) (user : option UserLike) : M unit :=
  let fr := unblock_frame in
  user <-
    match user with
    | Some u => ret u
    | None =>
        match ctx_thread ctx with
        | Some thread => ret (of_member (th_recipient thread))
        | None => raise (MissingRequiredArgument "user")
        end
    end ;;
  let mention := mention_or_id user in
  let name := name_or_id user in
  let key := Str.of_int (u_id user) in
  c <- get_config ;;
  embed <-
    (if Dict.mem key (blocked_users c) then
       let msg := default EmptyString (Dict.get key (blocked_users c)) in
       put_config (set_blocked_users (Dict.pop key (blocked_users c)) c) ;;
       config_update ;;
       if Str.startswith "System Message: " msg then
         let reason :=
           Str.or_else (Str.rstrip_char "." (Str.strip (Str.drop 16 msg)))
                       "no reason" in
         d <- trf fr msg_unblocked_internal
                  [("mention", mention); ("reason", reason)] ;;
         pfx <- get_prefix ;;
         f <- trf fr msg_unblocked_footer
                  [("name", name); ("prefix", pfx);
                   ("user_id", Str.of_int (u_id user))] ;;
         ret {| title := Some "Success"; color := main_color;
                description := d; footer := Some f |}
       else
         t <- tr fr "Success" ;;
         d <- trf fr "{mention} is no longer blocked." [("mention", mention)] ;;
         ret (mk_embed (Some t) main_color d)
     else
       t <- tr fr "Error" ;;
       d <- trf fr "{mention} is not blocked." [("mention", mention)] ;;
       ret (mk_embed (Some t) error_color d)) ;;
  ctx_send (Built embed).

(** * Vocabulary of the properties *)

(** The handler returned normally. *)
Definition returns {A} (r : (exn + A) * World) : Prop :=
  exists a, r.1 = inr a.

(** The handler sent exactly one message, [e], to the channel of the
    command, and did nothing else to the outside. *)
Definition sent_only (w : World) (r : (exn + unit) * World) (e : Sendable)
  : Prop :=
  trace r.2 = (trace w ++ [Send CtxChannel e])%list.

(** An embed in the error colour, and one in the main colour. *)
Definition error_embed (e : Sendable) : Prop :=
  exists b, e = Built b /\ color b = error_color.

Definition success_embed (e : Sendable) : Prop :=
  exists b, e = Built b /\ color b = main_color.

(** [config.update()] ran after the last write: what is stored is what is
    in memory. *)
Definition persisted (r : (exn + unit) * World) : Prop :=
  saved r.2 = config r.2.

(** The values of [dm_disabled]. *)
Definition dm_value (v : Z) : Prop := v = 0 \/ v = 1 \/ v = 2.

(** [str(thread.id)], the key the four commands use; no key when the
    command runs outside a thread. *)
Definition thread_key (ctx : Ctx) : option string :=
  (fun t => Str.of_int (th_id t)) <$> ctx_thread ctx.

(** What a run may change when it touches only the entry of the thread in
    [notification_squad]. *)
Definition squad_frame (ctx : Ctx) (w w' : World) : Prop :=
  config w' = set_notification_squad (notification_squad (config w')) (config w)
  /\ forall k, thread_key ctx <> Some k ->
       notification_squad (config w') !! k = notification_squad (config w) !! k.

(** The same for [subscriptions]. *)
Definition subscriptions_frame (ctx : Ctx) (w w' : World) : Prop :=
  config w' = set_subscriptions (subscriptions (config w')) (config w)
  /\ forall k, thread_key ctx <> Some k ->
       subscriptions (config w') !! k = subscriptions (config w) !! k.

(** The user a command is about: the argument, or the recipient of the
    thread the command runs in. *)
Definition target (ctx : Ctx) (user : option UserLike) : option UserLike :=
  match user with
  | Some u => Some u
  | None => of_member <$> (th_recipient <$> ctx_thread ctx)
  end.

(** [str(user.id)] *)
Definition user_key (u : UserLike) : string := Str.of_int (u_id u).

(** No key of [blocked_users] is in [blocked_whitelisted_users]. *)
Definition disjoint (c : Config) : Prop :=
  forall k, Dict.mem k (blocked_users c) = true ->
            Str.inb k (blocked_whitelisted_users c) = false.

(** The three commands, and a session of them. *)
Inductive Command :=
  | CBlock (ctx : Ctx) (user : option UserLike) (after : option After)
  | CUnblock (ctx : Ctx) (user : option UserLike)
  | CWhitelist (ctx : Ctx) (user : option UserLike).

Definition run_command (esc : string -> string) (cmd : Command) (w : World)
  : World :=
  match cmd with
  | CBlock ctx user after => (block esc ctx user after w).2
  | CUnblock ctx user => (unblock ctx user w).2
  | CWhitelist ctx user => (blocked_whitelist ctx user w).2
  end.

Definition run_session (esc : string -> string) (cmds : list Command)
    (w : World) : World :=
  fold_left (fun w cmd => run_command esc cmd w) cmds w.

(** * States and arguments used as instances *)

(** An empty configuration, and the bot with a given configuration and
    nothing else. *)
Definition config0 : Config :=
  {| snippets := ∅; aliases := ∅; notification_squad := ∅;
     subscriptions := ∅; blocked_users := [];
     blocked_whitelisted_users := []; dm_disabled := 0 |}.

Definition world_of (c : Config) : World :=
  {| config := c; saved := c; prefix := "?"; threads := [];
     channel_for := fun n => "<#" +:+ Str.of_int n +:+ ">";
     user_cache := ∅; user_api := ∅; trace := [] |}.

(** A moderator, a user with a thread, a bot and a user known by id only. *)
Definition member0 : Member :=
  {| m_id := 7; m_name := "mod"; m_discriminator := "0001";
     m_mention := "<@7>"; m_bot := false |}.

Definition member1 : Member :=
  {| m_id := 42; m_name := "ann"; m_discriminator := "0042";
     m_mention := "<@42>"; m_bot := false |}.

Definition bot_member : Member :=
  {| m_id := 100; m_name := "helper"; m_discriminator := "0000";
     m_mention := "<@100>"; m_bot := true |}.

Definition thread1 : Thread :=
  {| th_id := 42; th_recipient := member1; th_creator := member1;
     th_category := None; th_channel_mention := "<#4200>" |}.

Definition ctx1 : Ctx := {| author := member0; ctx_thread := Some thread1 |}.

Definition user9 : UserLike :=
  {| u_id := 9; u_mention := None; u_name := None; u_str := "<Object id=9>" |}.

(** User 9 blocked by a moderator and user 42 whitelisted; user 9 blocked
    by the system. *)
Definition config_blocked9 : Config :=
  set_blocked_users [("9", "by mod#0001.")]
    (set_blocked_whitelisted_users ["42"] config0).

Definition config_system_block : Config :=
  set_blocked_users
    [("9", "System Message: New Account. Required to wait for 3 days.")]
    config0.

(** A reason of 2045 characters; with the key and the separators its line
    has 2050. *)
Definition long_reason : string :=
  string_of_list_ascii (repeat "x"%char 2045).

Definition config_long_reason : Config :=
  set_blocked_users [("1", long_reason)] config0.

(** * Further handlers *)

(** ** [isenable] *)

Definition isenable : M unit :=
  let fr := enable_frame in
  c <- get_config ;;
  embed <-
    (if dm_disabled c =? 1 then
       t <- tr fr "New Threads Disabled" ;;
       d <- tr fr "Modmail is not creating new threads." ;;
       ret (mk_embed (Some t) error_color d)
     else if dm_disabled c =? 2 then
       t <- tr fr "All DM Disabled" ;;
       d <- tr fr "Modmail is not accepting any DM messages for new and existing threads." ;;
       ret (mk_embed (Some t) error_color d)
     else
       t <- tr fr "Enabled" ;;
       d <- tr fr "Modmail is accepting all DM messages." ;;
       ret (mk_embed (Some t) main_color d)) ;;
  ctx_send (Built embed).

(** ** [find_linked_message], [edit], [delete] and [logs delete] *)

(** [s.split(c)] for a one-character separator [c]. *)
Fixpoint split_char (c : ascii) (s : string) : list string :=
  match s with
  | EmptyString => [EmptyString]
  | String d s' =>
      if Ascii.eqb d c then EmptyString :: split_char c s'
      else match split_char c s' with
           | [] => [String d EmptyString]
           | x :: xs => String d x :: xs
           end
  end.

(** [l[-1]] *)
Definition last_item (l : list string) : exn + string :=
  match last l with
  | Some x => inr x
  | None => inl IndexError
  end.

(** An embed of a message of the channel history, as far as
    [find_linked_message] reads it: [embed.color], which has a [value]
    unless it is [Embed.Empty], and [embed.author.url], which is
    [Embed.Empty] when there is none. *)
Record HistoryEmbed := {
  he_color : option Z;
  he_author_url : option string }.

Record HistoryMessage := {
  hm_id : Z;
  hm_embeds : list HistoryEmbed }.

(** [str(url)] and [bool(url)] *)
Definition str_of_url (url : option string) : string :=
  match url with
  | Some s => s
  | None => "Embed.Empty"
  end.

Definition url_truthy (url : option string) : bool :=
  match url with
  | Some s => Str.truthy s
  | None => false
  end.

(** [find_linked_message(ctx, message_id)] over [ctx.channel.history()],
    latest message first; [mod_color] is [self.bot.mod_color]. *)
Fixpoint find_linked_message (mod_color : Z) (history : list HistoryMessage)
    (message_id : option Z) : exn + option string :=
  match history with
  | [] => inr None
  | msg :: history' =>
      match message_id, hm_embeds msg with
      | None, embed :: _ =>
          match he_color embed with
          | None => inl (AttributeError "value")
          | Some value =>
              if negb (value =? mod_color)
                 || negb (url_truthy (he_author_url embed))
              then find_linked_message mod_color history' message_id
              else
                match last_item (split_char "/"
                                   (str_of_url (he_author_url embed))) with
                | inl e => inl e
                | inr linked => inr (Some linked)
                end
          end
      | None, [] => find_linked_message mod_color history' message_id
      | Some id, embeds =>
          if negb (id =? 0) && (hm_id msg =? id) then
            match embeds with
            | [] => inl IndexError
            | embed :: _ =>
                match last_item (split_char "/"
                                   (str_of_url (he_author_url embed))) with
                | inl e => inl e
                | inr linked => inr (Some linked)
                end
            end
          else find_linked_message mod_color history' message_id
      end
  end.

(** What [edit], [delete] and [move] do to the outside. *)
Inductive Action :=
  | SendEmbed (e : Embed)
  | ThreadEditMessage (linked content : string)
  | ApiEditMessage (linked content : string)
  | ThreadDeleteMessage (linked : string)
  | MoveChannel (category : Z)
  | NotifyRecipient (e : Embed)
  | React.

(** [edit], [delete] and [move] assign [_]
    ([sent_emoji, _ = await self.bot.retrieve_emoji()]) on their last
    lines. *)
Definition edit_frame : Scope.frame :=
  Scope.Frame ["self"; "ctx"; "message_id"; "message"; "thread";
               "linked_message_id"; "sent_emoji"; "_"]
              ["self"; "ctx"; "message_id"; "message"].

Definition edit (mod_color : Z) (history : list HistoryMessage)
    (message_id : option Z) (message : string) : exn + list Action :=
  let fr := edit_frame in
  match find_linked_message mod_color history message_id with
  | inl e => inl e
  | inr None =>
      match Scope.call fr "_" "Failed" with
      | inl e => inl e
      | inr t =>
          match Scope.call fr "_" "Cannot find a message to edit." with
          | inl e => inl e
          | inr d => inr [SendEmbed (mk_embed (Some t) error_color d)]
          end
      end
  | inr (Some linked) =>
      inr [ThreadEditMessage linked message; ApiEditMessage linked message;
           React]
  end.

(** The handler [delete], in a module of its own: its name is that of the
    removal of a key from a map. *)
Module Handler.

Definition delete_frame : Scope.frame :=
  Scope.Frame ["self"; "ctx"; "message_id"; "thread"; "linked_message_id";
               "sent_emoji"; "_"]
              ["self"; "ctx"; "message_id"].

Definition delete (mod_color : Z) (history : list HistoryMessage)
    (message_id : option Z) : exn + list Action :=
  let fr := delete_frame in
  match find_linked_message mod_color history message_id with
  | inl e => inl e
  | inr None =>
      match Scope.call fr "_" "Failed" with
      | inl e => inl e
      | inr t =>
          match Scope.call fr "_" "Cannot find a message to delete." with
          | inl e => inl e
          | inr d => inr [SendEmbed (mk_embed (Some t) error_color d)]
          end
      end
  | inr (Some linked) => inr [ThreadDeleteMessage linked; React]
  end.

End Handler.

Definition logs_delete_frame : Scope.frame :=
  Scope.Frame ["self"; "ctx"; "key_or_link"; "key"; "success"; "embed"]
              ["self"; "ctx"; "key_or_link"].

(** [logs delete]; [delete_log_entry] is the answer of
    [self.bot.api.delete_log_entry]. *)
Definition logs_delete (delete_log_entry : string -> bool)
    (key_or_link : string) : M unit :=
  let fr := logs_delete_frame in
  key <- lift (last_item (split_char "/" key_or_link)) ;;
  let success := delete_log_entry key in
  embed <-
    (if negb success then
       t <- tr fr "Error" ;;
       d <- trf fr "Log entry `{key}` not found." [("key", key)] ;;
       ret (mk_embed (Some t) error_color d)
     else
       d <- trf fr "Log entry `{key}` successfully deleted." [("key", key)] ;;
       ret (mk_embed (Some "Success") main_color d)) ;;
  ctx_send (Built embed).

(** ** [move] *)





(** ** [snippet] *)

(** [zip_longest] over [n] references to one iterator of [l]: the items of
    [l] in tuples of [n], the last one filled up with [None]. [cur] is the
    tuple being filled and [room] what it still takes. *)
Fixpoint grouper_go {A} (n : nat) (l : list A) (cur : list (option A))
    (room : nat) : list (list (option A)) :=
  match l with
  | [] =>
      match cur with
      | [] => []
      | _ :: _ => [(cur ++ replicate room None)%list]
      end
  | x :: l' =>
      match room with
      | O => cur :: grouper_go n l' [Some x] (pred n)
      | S room' => grouper_go n l' (cur ++ [Some x])%list room'
      end
  end.

Definition grouper {A} (n : nat) (l : list A) : list (list (option A)) :=
  grouper_go n l [] n.

(** [sorted(d)] for a [dict] with string keys: its keys in the order of
    [str]. *)
Definition sorted_keys (d : gmap string string) : list string :=
  merge_sort String.le (elements (dom d)).

(** An embed with an author, as the listing builds it. *)
Record ListingEmbed := {
  le_author_name : string;
  le_author_icon : string;
  le_color : colour;
  le_description : string;
  le_footer : option string }.

(** What [snippet] sends. *)
Inductive Reply :=
  | ReplyNotFound (word : string) (possibilities : gset string) (kind : string)
  | ReplyText (text : string)
  | ReplyEmbed (e : ListingEmbed)
  | ReplyPages (embeds : list ListingEmbed).

Definition snippet_frame : Scope.frame :=
  Scope.Frame ["self"; "ctx"; "name"; "val"; "embed"; "embeds"; "i"; "names";
               "description"; "session"]
              ["self"; "ctx"; "name"].

Section Snippet.

(** [discord.utils.escape_mentions], [core.utils.format_description] and
    [ctx.guild.icon_url] *)
Variable escape_mentions : string -> string.
Variable format_description : nat -> list (option string) -> string.
Variable icon_url : string.

(** One turn of the loop over the tuples of names. *)
Definition snippet_page (fr : Scope.frame) (i : nat)
    (names : list (option string)) : exn + ListingEmbed :=
  let description := format_description i names in
  match Scope.call fr "_" "Snippets" with
  | inl e => inl e
  | inr author =>
      inr {| le_author_name := author; le_author_icon := icon_url;
             le_color := main_color; le_description := description;
             le_footer := None |}
  end.

Fixpoint snippet_pages (fr : Scope.frame) (i : nat)
    (tuples : list (list (option string))) : exn + list ListingEmbed :=
  match tuples with
  | [] => inr []
  | names :: tuples' =>
      match snippet_page fr i names with
      | inl e => inl e
      | inr embed =>
          match snippet_pages fr (S i) tuples' with
          | inl e => inl e
          | inr embeds => inr (embed :: embeds)
          end
      end
  end.

Definition snippet (name : option string) (w : World) : exn + Reply :=
  let fr := snippet_frame in
  match name with
  | Some name =>
      match snippets (config w) !! name with
      | None =>
          inr (ReplyNotFound name (dom (snippets (config w))) "Snippet")
      | Some val => inr (ReplyText (escape_mentions val))
      end
  | None =>
      if decide (snippets (config w) = ∅) then
        match Scope.call fr "_" "You dont have any snippets at the moment." with
        | inl e => inl e
        | inr d =>
            match Scope.call fr "_" "Do {prefix}help snippet for more commands." with
            | inl e => inl e
            | inr tpl =>
                match Format.format tpl [("prefix", prefix w)] with
                | inl e => inl e
                | inr f =>
                    match Scope.call fr "_" "Snippets" with
                    | inl e => inl e
                    | inr author =>
                        inr (ReplyEmbed
                               {| le_author_name := author;
                                  le_author_icon := icon_url;
                                  le_color := error_color;
                                  le_description := d;
                                  le_footer := Some f |})
                    end
                end
            end
        end
      else
        match snippet_pages fr 0
                (grouper 15 (sorted_keys (snippets (config w)))) with
        | inl e => inl e
        | inr embeds => inr (ReplyPages embeds)
        end
  end.

End Snippet.

(** ** [format_log_embeds] and [logs] *)

(** A user as a log entry stores it, with the id as [str] renders it. *)
Record LogUser := {
  lu_id : string;
  lu_name : string;
  lu_discriminator : string }.

(** A log entry with every key the handlers read; [closer] may be
    missing or [None]. *)
Record LogEntry (Msg : Type) := {
  created_at : string;
  key : string;
  recipient : LogUser;
  creator : LogUser;
  closer : option LogUser;
  messages : list Msg;
  is_open : bool }.

Arguments created_at {Msg}.
Arguments key {Msg}.
Arguments recipient {Msg}.
Arguments creator {Msg}.
Arguments closer {Msg}.
Arguments messages {Msg}.
Arguments is_open {Msg}.

(** The embed of one log entry: colour, timestamp, author (name, icon,
    url), url, the fields (name, value, inline) in the order they are
    added, and the footer. *)
Record LogEmbed (Time : Type) := {
  lg_color : colour;
  lg_timestamp : Time;
  lg_author_name : string;
  lg_author_icon : string;
  lg_author_url : string;
  lg_url : string;
  lg_fields : list (string * string * bool);
  lg_footer : string }.

Arguments lg_color {Time}.
Arguments lg_timestamp {Time}.
Arguments lg_author_name {Time}.
Arguments lg_author_icon {Time}.
Arguments lg_author_url {Time}.
Arguments lg_url {Time}.
Arguments lg_fields {Time}.
Arguments lg_footer {Time}.

(** [s.strip(c)] for a one-character [c]. *)
Definition strip_char (c : ascii) (s : string) : string :=
  Str.rstrip_char c (Str.lstrip_char c s).

(** [len(l)] as [str] renders it. *)
Definition str_of_len {A} (l : list A) : string :=
  Str.of_int (Z.of_nat (length l)).

Definition format_log_embeds_frame : Scope.frame :=
  Scope.Frame ["self"; "logs"; "avatar_url"; "embeds"; "title"; "entry";
               "created_at"; "prefix"; "log_url"; "username"; "embed";
               "closer"; "closer_msg"]
              ["self"; "logs"; "avatar_url"].

(** What [logs] sends: the embed that says there is nothing, or the pages
    of the paginator. *)
Inductive LogsReply (Time : Type) :=
  | NoLogs (e : Embed)
  | LogPages (embeds : list (LogEmbed Time)).

Arguments NoLogs {Time}.
Arguments LogPages {Time}.

Section Logs.

(** [dateutil.parser.parse], [natural.date.duration] against the time of
    the call, and [core.utils.format_preview]; the two configuration
    entries [log_url_prefix] and [log_url]; the avatar of a user, for one
    that has [avatar_url]; and the answer of [api.get_user_logs]. *)
Variables Time Msg : Type.
Variable parse : string -> exn + Time.
Variable duration : Time -> string.
Variable format_preview : list Msg -> string.
Variable log_url_prefix : string.
Variable log_url_base : string.
Variable avatar_url_of : UserLike -> option string.
Variable get_user_logs : Z -> list (LogEntry Msg).

(** One turn of the loop of [format_log_embeds]. *)
Definition format_log_embed (fr : Scope.frame) (title avatar_url : string)
    (entry : LogEntry Msg) : exn + LogEmbed Time :=
  match parse (created_at entry) with
  | inl e => inl e
  | inr created =>
      let prefix := strip_char "/" log_url_prefix in
      let prefix := if String.eqb prefix "NONE" then EmptyString else prefix in
      let log_url :=
        strip_char "/" log_url_base
        +:+ (if Str.truthy prefix then "/" +:+ prefix else EmptyString)
        +:+ "/" +:+ key entry in
      let username :=
        (lu_name (recipient entry) +:+ "#")
        +:+ lu_discriminator (recipient entry) in
      let fields := [("Created", duration created, true)] in
      match (match closer entry with
             | None => Scope.call fr "_" "Unknown"
             | Some c => inr ("<@" +:+ lu_id c +:+ ">")
             end) with
      | inl e => inl e
      | inr closer_msg =>
          match Scope.call fr "_" "Closed By" with
          | inl e => inl e
          | inr closed_by =>
              let fields := (fields ++ [(closed_by, closer_msg, true)])%list in
              match (if negb (String.eqb (lu_id (recipient entry))
                                         (lu_id (creator entry)))
                     then match Scope.call fr "_" "Created by" with
                          | inl e => inl e
                          | inr n =>
                              inr (fields ++
                                   [(n, "<@" +:+ lu_id (creator entry) +:+ ">",
                                     true)])%list
                          end
                     else inr fields) with
              | inl e => inl e
              | inr fields =>
                  match Scope.call fr "_" "Preview" with
                  | inl e => inl e
                  | inr preview =>
                      let fields :=
                        (fields ++
                         [(preview, format_preview (messages entry), false)])%list
                      in
                      match (match closer entry with
                             | Some _ =>
                                 match Scope.call fr "_" "Link" with
                                 | inl e => inl e
                                 | inr n => inr (fields ++ [(n, log_url, true)])%list
                                 end
                             | None =>
                                 match Scope.call fr "_" "Log Key" with
                                 | inl e => inl e
                                 | inr n =>
                                     inr (fields ++
                                          [(n, "`" +:+ key entry +:+ "`", true)])%list
                                 end
                             end) with
                      | inl e => inl e
                      | inr fields =>
                          match Scope.call fr "_" "Recipient ID" with
                          | inl e => inl e
                          | inr rid =>
                              inr {| lg_color := main_color;
                                     lg_timestamp := created;
                                     lg_author_name :=
                                       title +:+ " - " +:+ username;
                                     lg_author_icon := avatar_url;
                                     lg_author_url := log_url;
                                     lg_url := log_url;
                                     lg_fields := fields;
                                     lg_footer :=
                                       rid +:+ ": " +:+ lu_id (recipient entry) |}
                          end
                      end
                  end
              end
          end
      end
  end.

Fixpoint format_log_embeds_loop (fr : Scope.frame) (title avatar_url : string)
    (logs : list (LogEntry Msg)) : exn + list (LogEmbed Time) :=
  match logs with
  | [] => inr []
  | entry :: logs' =>
      match format_log_embed fr title avatar_url entry with
      | inl e => inl e
      | inr embed =>
          match format_log_embeds_loop fr title avatar_url logs' with
          | inl e => inl e
          | inr embeds => inr (embed :: embeds)
          end
      end
  end.

Definition format_log_embeds (logs : list (LogEntry Msg)) (avatar_url : string)
  : exn + list (LogEmbed Time) :=
  let title := "Total Results Found (" +:+ str_of_len logs +:+ ")" in
  format_log_embeds_loop format_log_embeds_frame title avatar_url logs.

Definition logs_frame : Scope.frame :=
  Scope.Frame ["self"; "ctx"; "user"; "thread"; "default_avatar"; "icon_url";
               "logs"; "embed"; "embeds"; "session"]
              ["self"; "ctx"; "user"].

Definition logs (ctx : Ctx) (user : option UserLike)
  : exn + LogsReply Time :=
  let fr := logs_frame in
  match (match user with
         | Some u => Some u
         | None => of_member <$> (th_recipient <$> ctx_thread ctx)
         end) with
  | None => inl (MissingRequiredArgument "member")
  | Some user =>
      let default_avatar := "https://cdn.discordapp.com/embed/avatars/0.png" in
      let icon_url := default default_avatar (avatar_url_of user) in
      let logs := get_user_logs (u_id user) in
      if negb (existsb (fun log => negb (is_open log)) logs) then
        match Scope.call fr "_" "This user does not have any previous logs." with
        | inl e => inl e
        | inr d => inr (NoLogs (mk_embed None error_color d))
        end
      else
        let logs := rev (List.filter (fun e => negb (is_open e)) logs) in
        match format_log_embeds logs icon_url with
        | inl e => inl e
        | inr embeds => inr (LogPages embeds)
        end
  end.

End Logs.

(** * Vocabulary of the further properties *)

(** The list a thread has in one of the two maps, empty when it has no
    entry. *)
Definition entry (m : gmap string (list string)) (key : string)
  : list string :=
  default [] (m !! key).

(** The mention [unnotify] and [unsubscribe] look for: what
    [parse_user_or_role] yields, or the argument between backquotes. *)
Definition sought (ctx : Ctx) (a : option Mentionable) : string :=
  match parse_user_or_role ctx a with
  | Some m => m
  | None => "`" +:+ str_of_arg a +:+ "`"
  end.

(** A run that appends [m] to the list of [key] in the map [field] unless
    it is there: when it appends it stores the configuration and sends a
    success embed, otherwise it changes nothing and sends an error embed. *)
Definition adds_once (field : Config -> gmap string (list string))
    (key m : string) (w : World) (r : (exn + unit) * World) : Prop :=
  let l := entry (field (config w)) key in
  returns r
  /\ entry (field (config r.2)) key
     = (if Str.inb m l then l else (l ++ [m])%list)
  /\ (Str.inb m l = false ->
      persisted r /\ exists e, sent_only w r e /\ success_embed e)
  /\ (Str.inb m l = true ->
      config r.2 = config w /\ exists e, sent_only w r e /\ error_embed e).

(** A run that removes the first [m] from the list of [key] in the map
    [field] if there is one: when it removes it stores the configuration
    and sends a success embed, otherwise it stores nothing and sends an
    error embed. *)
Definition removes_once (field : Config -> gmap string (list string))
    (key m : string) (w : World) (r : (exn + unit) * World) : Prop :=
  let l := entry (field (config w)) key in
  returns r
  /\ entry (field (config r.2)) key
     = (if Str.inb m l then Str.remove_first m l else l)
  /\ (Str.inb m l = true ->
      persisted r /\ exists e, sent_only w r e /\ success_embed e)
  /\ (Str.inb m l = false ->
      saved r.2 = saved w /\ exists e, sent_only w r e /\ error_embed e).

(** Every list of the map has no mention twice. *)
Definition distinct_entries (m : gmap string (list string)) : Prop :=
  forall k, NoDup (entry m k).

(** The start of every reason [block] writes:
    [f"by {escape_markdown(ctx.author.name)}#{ctx.author.discriminator}"] *)
Definition blocker (esc : string -> string) (ctx : Ctx) : string :=
  "by " +:+ esc (m_name (author ctx)) +:+ "#" +:+ m_discriminator (author ctx).

(** An author with a [%] in the name. *)
Definition member_percent : Member :=
  {| m_id := 8; m_name := "100%"; m_discriminator := "0008";
     m_mention := "<@8>"; m_bot := false |}.





(** A message of the history that [find_linked_message] passes over when
    it looks for the latest reply: no embed, or a first embed of another
    colour than [mod_color] or without an author url. *)
Definition passed_over (mod_color : Z) (msg : HistoryMessage) : bool :=
  match hm_embeds msg with
  | [] => true
  | embed :: _ =>
      match he_color embed with
      | None => false
      | Some value =>
          negb (value =? mod_color) || negb (url_truthy (he_author_url embed))
      end
  end.

(** A history with a note, a reply whose author url ends in [4711] and an
    older reply. *)
Definition history0 : list HistoryMessage :=
  [ {| hm_id := 30; hm_embeds := [] |};
    {| hm_id := 20;
       hm_embeds := [{| he_color := Some 5;
                        he_author_url := Some "https://discord.com/users/1" |}] |};
    {| hm_id := 10;
       hm_embeds := [{| he_color := Some 7;
                        he_author_url :=
                          Some "https://discordapp.com/channels/1/2/4711" |}] |};
    {| hm_id := 5;
       hm_embeds := [{| he_color := Some 7;
                        he_author_url :=
                          Some "https://discordapp.com/channels/1/2/4700" |}] |} ].


(** Two snippets. *)
Definition config_two_snippets : Config :=
  set_snippets (<["hi" := "hello"]> {["bye" := "see you"]}) config0.

(** Three log entries of one user, the second still open, and the answer
    of an API that knows only them. *)
Definition log_user1 : LogUser :=
  {| lu_id := "42"; lu_name := "ann"; lu_discriminator := "0042" |}.

Definition log_entry (k : string) (open : bool) : LogEntry string :=
  {| created_at := "2020-01-01T00:00:00"; key := k; recipient := log_user1;
     creator := log_user1; closer := None; messages := [];
     is_open := open |}.

Definition logs0 : list (LogEntry string) :=
  [log_entry "a1" false; log_entry "b2" true; log_entry "c3" false].

(** * Properties *)

Lemma has_key_true {V} (k : string) (m : gmap string V) :
  has_key k m = true <-> is_Some (m !! k).
Proof.
  unfold has_key. destruct (m !! k) as [x|]; split; intros H; eauto.
  - discriminate.
  - destruct H as [? H]. discriminate.
Qed.

Lemma has_key_false {V} (k : string) (m : gmap string V) :
  has_key k m = false <-> m !! k = None.
Proof.
  unfold has_key. destruct (m !! k); split; intros H; congruence.
Qed.

(** Unfolds the plumbing of a handler run. *)
Ltac run :=
  unfold getitem, thread_id, trf, tr, ctx_send, emit, config_update,
    put_config, get_config, get_prefix, lift, raise, ret, bind;
  cbn [fst snd config saved trace threads prefix channel_for user_cache
       user_api with_config with_saved with_trace with_threads].

(** Closes a goal made of conjunctions and existentials once the run is
    unfolded. *)
Ltac finish := repeat (split || eexists); eauto.

(** *** C1 *)

(** C1. [snippet_add] with a name that is a key of the snippets, or a key
    of the aliases, or longer than 120 characters, returns after sending
    one error embed and leaves the snippets (and the whole configuration)
    as they were; with any other name it returns after storing the value
    under the name, updating the stored configuration and sending one
    success embed. *)
Theorem snippet_add_spec (n v : string) (w : World) :
  (is_Some (snippets (config w) !! n) \/ is_Some (aliases (config w) !! n)
   \/ (120 < String.length n)%nat ->
   returns (snippet_add n v w)
   /\ (exists e, sent_only w (snippet_add n v w) e /\ error_embed e)
   /\ snippets (config (snippet_add n v w).2) = snippets (config w)
   /\ config (snippet_add n v w).2 = config w)
  /\
  (~ (is_Some (snippets (config w) !! n) \/ is_Some (aliases (config w) !! n)
      \/ (120 < String.length n)%nat) ->
   returns (snippet_add n v w)
   /\ snippets (config (snippet_add n v w).2) !! n = Some v
   /\ snippets (config (snippet_add n v w).2) = <[n := v]> (snippets (config w))
   /\ persisted (snippet_add n v w)
   /\ (exists e, sent_only w (snippet_add n v w) e /\ success_embed e)).
Proof.
  unfold returns, sent_only, persisted, error_embed, success_embed.
  unfold snippet_add. run.
  destruct (has_key n (snippets (config w))) eqn:Hs.
  { split; [intros _ | intros H; exfalso; apply H; left; by apply has_key_true].
    cbn. eauto 10. }
  destruct (has_key n (aliases (config w))) eqn:Ha.
  { split; [intros _ | intros H; exfalso; apply H; right; left;
                        by apply has_key_true].
    cbn. eauto 10. }
  destruct (120 <? String.length n)%nat eqn:Hl.
  { apply Nat.ltb_lt in Hl.
    split; [intros _ | intros H; exfalso; apply H; right; right; exact Hl].
    cbn. eauto 10. }
  apply Nat.ltb_ge in Hl. apply has_key_false in Hs, Ha.
  split.
  - intros [[x Hx] | [[x Hx] | Hx]]; [congruence | congruence | lia].
  - intros _. cbn. rewrite lookup_insert_eq. eauto 10.
Qed.

Lemma snippet_add_spec_witness :
  (is_Some (snippets (config (world_of (set_snippets {["hi" := "old"]} config0)))
              !! "hi")
   /\ config (snippet_add "hi" "new"
                (world_of (set_snippets {["hi" := "old"]} config0))).2
      = set_snippets {["hi" := "old"]} config0)
  /\ (~ (is_Some (snippets (config (world_of config0)) !! "hi")
         \/ is_Some (aliases (config (world_of config0)) !! "hi")
         \/ (120 < String.length "hi")%nat)
      /\ snippets (config (snippet_add "hi" "new" (world_of config0)).2) !! "hi"
         = Some "new").
Proof.
  split.
  - assert (H : is_Some (snippets (config (world_of
                   (set_snippets {["hi" := "old"]} config0))) !! "hi"))
      by (exists "old"; reflexivity).
    split; [exact H |].
    apply (proj1 (snippet_add_spec "hi" "new"
                    (world_of (set_snippets {["hi" := "old"]} config0)))).
    left; exact H.
  - assert (H : ~ (is_Some (snippets (config (world_of config0)) !! "hi")
                   \/ is_Some (aliases (config (world_of config0)) !! "hi")
                   \/ (120 < String.length "hi")%nat)).
    { intros [[x Hx] | [[x Hx] | Hx]];
        [discriminate Hx | discriminate Hx | cbn in Hx; lia]. }
    split; [exact H |].
    apply (proj2 (snippet_add_spec "hi" "new" (world_of config0)) H).
Defined.

(** *** C2 *)

Lemma mem_set (k k' v : string) (d : Dict.t) :
  Dict.mem k (Dict.set k' v d) = (String.eqb k k' || Dict.mem k d)%bool.
Proof.
  induction d as [| [k0 v0] d IH]; cbn.
  - by destruct (String.eqb k k').
  - destruct (String.eqb k' k0) eqn:E; cbn.
    + apply String.eqb_eq in E. subst k0.
      by destruct (String.eqb k k').
    + rewrite IH. destruct (String.eqb k k0) eqn:E0; [| reflexivity].
      by rewrite orb_true_r.
Qed.

Lemma mem_pop (k k' : string) (d : Dict.t) :
  Dict.mem k (Dict.pop k' d) = (negb (String.eqb k k') && Dict.mem k d)%bool.
Proof.
  induction d as [| [k0 v0] d IH]; cbn.
  - by rewrite andb_false_r.
  - destruct (String.eqb k' k0) eqn:E; cbn.
    + apply String.eqb_eq in E. subst k0. rewrite IH.
      by destruct (String.eqb k k').
    + rewrite IH. destruct (String.eqb k k0) eqn:E0; [| reflexivity].
      apply String.eqb_eq in E0. subst k0.
      rewrite String.eqb_sym in E. by rewrite E.
Qed.

Lemma inb_snoc (k k' : string) (l : list string) :
  Str.inb k (l ++ [k']) = (Str.inb k l || String.eqb k k')%bool.
Proof.
  induction l as [| y l IH]; cbn.
  - by destruct (String.eqb k k').
  - by destruct (String.eqb k y).
Qed.

Lemma inb_remove_first (k k' : string) (l : list string) :
  Str.inb k l = false -> Str.inb k (Str.remove_first k' l) = false.
Proof.
  induction l as [| y l IH]; cbn; [done |].
  destruct (String.eqb k y) eqn:E; [done |]. intros H.
  destruct (String.eqb k' y); cbn; [done |]. by rewrite E, IH.
Qed.

Lemma disjoint_set (key reason : string) (c : Config) :
  disjoint c ->
  Str.inb key (blocked_whitelisted_users c) = false ->
  disjoint (set_blocked_users (Dict.set key reason (blocked_users c)) c).
Proof.
  intros Hd Hk k. unfold disjoint in *. cbn. rewrite mem_set.
  destruct (String.eqb k key) eqn:E; cbn.
  - apply String.eqb_eq in E. by subst k.
  - apply Hd.
Qed.

Lemma disjoint_pop (key : string) (c : Config) :
  disjoint c ->
  disjoint (set_blocked_users (Dict.pop key (blocked_users c)) c).
Proof.
  intros Hd k. unfold disjoint in *. cbn. rewrite mem_pop.
  intros [_ H]%andb_true_iff. by apply Hd.
Qed.

Lemma disjoint_unlist (key : string) (c : Config) :
  disjoint c ->
  disjoint (set_blocked_whitelisted_users
              (Str.remove_first key (blocked_whitelisted_users c)) c).
Proof.
  intros Hd k H. cbn in *. apply inb_remove_first. by apply Hd.
Qed.

Lemma disjoint_list_pop (key : string) (c : Config) :
  disjoint c ->
  disjoint (set_blocked_users
              (Dict.pop key (blocked_users c))
              (set_blocked_whitelisted_users
                 (blocked_whitelisted_users c ++ [key]) c)).
Proof.
  intros Hd k. cbn. rewrite mem_pop, inb_snoc.
  intros [Hne H]%andb_true_iff. rewrite (Hd k H).
  by destruct (String.eqb k key).
Qed.

Lemma disjoint_list_absent (key : string) (c : Config) :
  disjoint c ->
  Dict.mem key (blocked_users c) = false ->
  disjoint (set_blocked_whitelisted_users
              (blocked_whitelisted_users c ++ [key]) c).
Proof.
  intros Hd Hk k. cbn. rewrite inb_snoc. intros H. rewrite (Hd k H).
  destruct (String.eqb k key) eqn:E; [| done].
  apply String.eqb_eq in E. subst k. congruence.
Qed.

(** Splits on the tests a run is stuck on. *)
Ltac case_tests :=
  repeat (cbn;
          match goal with
          | |- context [if ?b then _ else _] => destruct b eqn:?
          end).

Lemma block_refuses (esc : string -> string) (ctx : Ctx)
    (user : option UserLike) (after : option After) (w : World) (u : UserLike) :
  target ctx user = Some u ->
  Str.inb (user_key u) (blocked_whitelisted_users (config w)) = true ->
  block esc ctx user after w
  = (inr tt,
     with_trace
       (trace w ++
        [Send CtxChannel
           (Built (mk_embed (Some "Error") error_color
                     ("Cannot block " +:+ mention_or_id u
                      +:+ ", user is whitelisted.")))])
       w).
Proof.
  unfold target, user_key, block. intros Ht Hw.
  destruct user as [u0|]; cbn in Ht.
  - injection Ht as ->. run. rewrite Hw. reflexivity.
  - destruct (ctx_thread ctx) as [t|]; cbn in Ht; [| discriminate].
    injection Ht as <-. run. cbn in *. rewrite Hw. reflexivity.
Qed.

Lemma block_config (esc : string -> string) (ctx : Ctx)
    (user : option UserLike) (after : option After) (w : World) :
  config (block esc ctx user after w).2 = config w
  \/ exists u reason,
       target ctx user = Some u
       /\ Str.inb (user_key u) (blocked_whitelisted_users (config w)) = false
       /\ config (block esc ctx user after w).2
          = set_blocked_users
              (Dict.set (user_key u) reason (blocked_users (config w)))
              (config w).
Proof.
  unfold target, user_key, block.
  destruct user as [u|]; [| destruct (ctx_thread ctx) as [t|]];
    [| | destruct after; by left].
  all: run.
  all: destruct after as [a|]; case_tests;
    first [ by left
          | right; eexists _, _;
            (split; [reflexivity |]); (split; [eassumption | reflexivity]) ].
Qed.

Lemma unblock_config (ctx : Ctx) (user : option UserLike) (w : World) :
  config (unblock ctx user w).2 = config w
  \/ exists u,
       target ctx user = Some u
       /\ config (unblock ctx user w).2
          = set_blocked_users
              (Dict.pop (user_key u) (blocked_users (config w))) (config w).
Proof.
  unfold target, user_key, unblock.
  destruct user as [u|]; [| destruct (ctx_thread ctx) as [t|]];
    [| | by left].
  all: run; case_tests;
    first [ by left | right; eexists; split; reflexivity ].
Qed.

Lemma blocked_whitelist_config (ctx : Ctx) (user : option UserLike)
    (w : World) :
  config (blocked_whitelist ctx user w).2 = config w
  \/ exists u,
       target ctx user = Some u
       /\ (config (blocked_whitelist ctx user w).2
           = set_blocked_whitelisted_users
               (Str.remove_first (user_key u)
                  (blocked_whitelisted_users (config w)))
               (config w)
           \/ config (blocked_whitelist ctx user w).2
              = set_blocked_users
                  (Dict.pop (user_key u) (blocked_users (config w)))
                  (set_blocked_whitelisted_users
                     (blocked_whitelisted_users (config w) ++ [user_key u])
                     (config w))
           \/ (Dict.mem (user_key u) (blocked_users (config w)) = false
               /\ config (blocked_whitelist ctx user w).2
                  = set_blocked_whitelisted_users
                      (blocked_whitelisted_users (config w) ++ [user_key u])
                      (config w))).
Proof.
  unfold target, user_key, blocked_whitelist.
  destruct user as [u|]; [| destruct (ctx_thread ctx) as [t|]];
    [| | by left].
  all: run; case_tests; right; eexists; (split; [reflexivity |]);
    first [ by left | right; by left | right; right; by split ].
Qed.

(** What [blocked whitelist] does for a user who is not whitelisted. *)
Lemma blocked_whitelist_adds (ctx : Ctx) (user : option UserLike) (w : World)
    (u : UserLike) :
  target ctx user = Some u ->
  Str.inb (user_key u) (blocked_whitelisted_users (config w)) = false ->
  returns (blocked_whitelist ctx user w)
  /\ Str.inb (user_key u)
       (blocked_whitelisted_users (config (blocked_whitelist ctx user w).2))
     = true
  /\ Dict.mem (user_key u)
       (blocked_users (config (blocked_whitelist ctx user w).2))
     = false
  /\ persisted (blocked_whitelist ctx user w)
  /\ exists e, sent_only w (blocked_whitelist ctx user w) e /\ success_embed e.
Proof.
  unfold target, user_key, blocked_whitelist, returns, persisted, sent_only,
    success_embed.
  intros Ht Hw.
  assert (Hin : forall l, Str.inb (Str.of_int (u_id u))
                            (l ++ [Str.of_int (u_id u)]) = true).
  { intros l. rewrite inb_snoc, String.eqb_refl. apply orb_true_r. }
  assert (Hout : forall d, Dict.mem (Str.of_int (u_id u))
                             (Dict.pop (Str.of_int (u_id u)) d) = false).
  { intros d. by rewrite mem_pop, String.eqb_refl. }
  destruct user as [u0|]; cbn in Ht;
    [| destruct (ctx_thread ctx) as [t|]; cbn in Ht; [| discriminate]];
    injection Ht as <-; run; cbn in *; rewrite Hw; case_tests;
    rewrite ?Hin, ?Hout; cbn; finish.
Qed.

Lemma block_disjoint (esc : string -> string) (ctx : Ctx)
    (user : option UserLike) (after : option After) (w : World) :
  disjoint (config w) -> disjoint (config (block esc ctx user after w).2).
Proof.
  intros Hd.
  destruct (block_config esc ctx user after w) as [-> | (u & r & _ & Hw & ->)];
    [exact Hd | by apply disjoint_set].
Qed.

Lemma unblock_disjoint (ctx : Ctx) (user : option UserLike) (w : World) :
  disjoint (config w) -> disjoint (config (unblock ctx user w).2).
Proof.
  intros Hd.
  destruct (unblock_config ctx user w) as [-> | (u & _ & ->)];
    [exact Hd | by apply disjoint_pop].
Qed.

Lemma blocked_whitelist_disjoint (ctx : Ctx) (user : option UserLike)
    (w : World) :
  disjoint (config w) -> disjoint (config (blocked_whitelist ctx user w).2).
Proof.
  intros Hd.
  destruct (blocked_whitelist_config ctx user w)
    as [-> | (u & _ & [-> | [-> | [Hm ->]]])].
  - exact Hd.
  - by apply disjoint_unlist.
  - by apply disjoint_list_pop.
  - by apply disjoint_list_absent.
Qed.

Lemma run_session_disjoint (esc : string -> string) (cmds : list Command) :
  forall w, disjoint (config w) -> disjoint (config (run_session esc cmds w)).
Proof.
  induction cmds as [| cmd cmds IH]; intros w Hd; [exact Hd |].
  cbn. apply IH. destruct cmd; cbn.
  - by apply block_disjoint.
  - by apply unblock_disjoint.
  - by apply blocked_whitelist_disjoint.
Qed.

(** C2. [block] of a whitelisted user returns after sending one error
    embed and leaves the configuration as it was. [blocked whitelist] of a
    user who is not whitelisted returns with the user whitelisted and no
    longer a key of the blocked users. Each of [block], [unblock] and
    [blocked whitelist], whether it returns or raises, leaves the blocked
    users and the whitelist without a common id if they had none; so does
    any sequence of the three commands. *)
Theorem blocked_whitelist_disjointness (esc : string -> string) (ctx : Ctx)
    (user : option UserLike) (after : option After) (w : World) :
  (forall u, target ctx user = Some u ->
     Str.inb (user_key u) (blocked_whitelisted_users (config w)) = true ->
     returns (block esc ctx user after w)
     /\ config (block esc ctx user after w).2 = config w
     /\ exists e, sent_only w (block esc ctx user after w) e /\ error_embed e)
  /\ (forall u, target ctx user = Some u ->
        Str.inb (user_key u) (blocked_whitelisted_users (config w)) = false ->
        returns (blocked_whitelist ctx user w)
        /\ Str.inb (user_key u)
             (blocked_whitelisted_users
                (config (blocked_whitelist ctx user w).2)) = true
        /\ Dict.mem (user_key u)
             (blocked_users (config (blocked_whitelist ctx user w).2)) = false)
  /\ (disjoint (config w) ->
      disjoint (config (block esc ctx user after w).2)
      /\ disjoint (config (unblock ctx user w).2)
      /\ disjoint (config (blocked_whitelist ctx user w).2))
  /\ (forall cmds, disjoint (config w) ->
        disjoint (config (run_session esc cmds w))).
Proof.
  split; [| split; [| split]].
  - intros u Ht Hw. rewrite (block_refuses esc ctx user after w u Ht Hw).
    unfold returns, sent_only, error_embed. cbn. finish.
  - intros u Ht Hw.
    destruct (blocked_whitelist_adds ctx user w u Ht Hw) as (? & ? & ? & _).
    auto.
  - intros Hd. split; [by apply block_disjoint |].
    split; [by apply unblock_disjoint | by apply blocked_whitelist_disjoint].
  - intros cmds Hd. by apply run_session_disjoint.
Qed.

Lemma config_blocked9_disjoint : disjoint config_blocked9.
Proof.
  intros k H. cbn in *. destruct (String.eqb k "9") eqn:E; [| discriminate].
  apply String.eqb_eq in E. by subst k.
Defined.

Lemma blocked_whitelist_disjointness_witness :
  (target ctx1 None = Some (of_member member1)
   /\ Str.inb (user_key (of_member member1))
        (blocked_whitelisted_users (config (world_of config_blocked9))) = true
   /\ config (block (fun s => s) ctx1 None None (world_of config_blocked9)).2
      = config_blocked9)
  /\ (Str.inb (user_key user9)
        (blocked_whitelisted_users (config (world_of config_blocked9))) = false
      /\ Dict.mem (user_key user9)
           (blocked_users
              (config (blocked_whitelist ctx1 (Some user9)
                         (world_of config_blocked9)).2)) = false)
  /\ (disjoint (config (world_of config_blocked9))
      /\ disjoint
           (config (run_session (fun s => s)
                      [CWhitelist ctx1 (Some user9);
                       CBlock ctx1 (Some user9) None;
                       CUnblock ctx1 None]
                      (world_of config_blocked9)))).
Proof.
  assert (Ht : target ctx1 None = Some (of_member member1)) by reflexivity.
  assert (Hw : Str.inb (user_key (of_member member1))
                 (blocked_whitelisted_users
                    (config (world_of config_blocked9))) = true)
    by reflexivity.
  assert (Ht9 : target ctx1 (Some user9) = Some user9) by reflexivity.
  assert (Hw9 : Str.inb (user_key user9)
                  (blocked_whitelisted_users
                     (config (world_of config_blocked9))) = false)
    by reflexivity.
  assert (Hd : disjoint (config (world_of config_blocked9)))
    by exact config_blocked9_disjoint.
  destruct (blocked_whitelist_disjointness (fun s => s) ctx1 None None
              (world_of config_blocked9)) as (Hrefuse & _ & _ & Hsession).
  destruct (blocked_whitelist_disjointness (fun s => s) ctx1 (Some user9) None
              (world_of config_blocked9)) as (_ & Hadd & _ & _).
  split; [| split].
  - split; [exact Ht |]. split; [exact Hw |].
    apply (Hrefuse _ Ht Hw).
  - split; [exact Hw9 |]. apply (Hadd _ Ht9 Hw9).
  - split; [exact Hd |]. apply (Hsession _ Hd).
Defined.

(** *** C3 *)

Lemma enable_run (w : World) :
  returns (enable w)
  /\ dm_disabled (config (enable w).2) = 0
  /\ exists e, sent_only w (enable w) e /\ success_embed e.
Proof.
  unfold returns, sent_only, success_embed, enable. run.
  cbn. destruct (dm_disabled (config w) =? 0) eqn:E; cbn.
  - apply Z.eqb_eq in E. finish.
  - finish.
Qed.

Lemma disable_run (w : World) :
  returns (disable w)
  /\ dm_disabled (config (disable w).2)
     = (if dm_disabled (config w) <? 1 then 1 else dm_disabled (config w))
  /\ exists e, sent_only w (disable w) e /\ success_embed e.
Proof.
  unfold returns, sent_only, success_embed, disable. run.
  cbn. destruct (dm_disabled (config w) <? 1) eqn:E; cbn; finish.
Qed.

Lemma disable_all_run (w : World) :
  returns (disable_all w)
  /\ dm_disabled (config (disable_all w).2) = 2
  /\ exists e, sent_only w (disable_all w) e /\ success_embed e.
Proof.
  unfold returns, sent_only, success_embed, disable_all. run.
  cbn. destruct (dm_disabled (config w) =? 2) eqn:E; cbn.
  - apply Z.eqb_eq in E. finish.
  - finish.
Qed.

(** C3. Each of [enable], [disable] and [disable all] returns after
    sending one success embed, whatever [dm_disabled] was. [enable] leaves
    it at 0; [disable] leaves it at 1 when it was below 1 and as it was
    otherwise (so 2 stays 2); [disable all] leaves it at 2. A value among
    0, 1, 2 stays among 0, 1, 2 under the three commands. *)
Theorem dm_disabled_transitions (w : World) :
  (returns (enable w) /\ returns (disable w) /\ returns (disable_all w))
  /\ ((exists e, sent_only w (enable w) e /\ success_embed e)
      /\ (exists e, sent_only w (disable w) e /\ success_embed e)
      /\ (exists e, sent_only w (disable_all w) e /\ success_embed e))
  /\ dm_disabled (config (enable w).2) = 0
  /\ (dm_disabled (config w) < 1 -> dm_disabled (config (disable w).2) = 1)
  /\ (1 <= dm_disabled (config w) ->
      dm_disabled (config (disable w).2) = dm_disabled (config w))
  /\ (dm_disabled (config w) = 2 -> dm_disabled (config (disable w).2) = 2)
  /\ dm_disabled (config (disable_all w).2) = 2
  /\ (dm_value (dm_disabled (config w)) ->
      dm_value (dm_disabled (config (enable w).2))
      /\ dm_value (dm_disabled (config (disable w).2))
      /\ dm_value (dm_disabled (config (disable_all w).2))).
Proof.
  destruct (enable_run w) as (Re & Ve & Se).
  destruct (disable_run w) as (Rd & Vd & Sd).
  destruct (disable_all_run w) as (Ra & Va & Sa).
  rewrite Ve, Vd, Va. unfold dm_value.
  split; [by repeat split |].
  split; [by repeat split |].
  split; [reflexivity |].
  split. { intros H. apply Z.ltb_lt in H. by rewrite H. }
  split. { intros H. apply Z.ltb_ge in H. by rewrite H. }
  split. { intros H. by rewrite H. }
  split; [reflexivity |].
  intros [H | [H | H]]; rewrite H; cbn; auto.
Qed.

Lemma dm_disabled_transitions_witness :
  dm_disabled (config (disable (world_of config0)).2) = 1
  /\ dm_disabled (config (disable (world_of (set_dm_disabled 2 config0))).2) = 2
  /\ dm_value (dm_disabled (config (disable_all (world_of config0)).2)).
Proof.
  destruct (dm_disabled_transitions (world_of config0))
    as (_ & _ & _ & Hlow & _ & _ & _ & Hrange).
  destruct (dm_disabled_transitions (world_of (set_dm_disabled 2 config0)))
    as (_ & _ & _ & _ & _ & Hkeep & _).
  split; [| split].
  - apply Hlow. cbn. lia.
  - apply Hkeep. reflexivity.
  - apply Hrange. left. reflexivity.
Defined.

(** *** C4 *)

(** C4, as the code runs: every call of [contact] raises
    [UnboundLocalError] at its first [_(...)], because [_] is a local of
    [contact], assigned only on its last lines; no embed is sent. For a bot
    and for a user who has a thread the threads are as they were; for any
    other user the one new thread, with that user as recipient and the
    author as creator, has been created before the call raises. *)
Theorem contact_raises (ctx : Ctx) (category : option Z) (user : Member)
    (w : World) :
  (contact ctx category user w).1 = inl (UnboundLocalError "_")
  /\ trace (contact ctx category user w).2 = trace w
  /\ (m_bot user = true ->
      threads (contact ctx category user w).2 = threads w)
  /\ (forall t, (threads_find user w).1 = inr (Some t) ->
      threads (contact ctx category user w).2 = threads w)
  /\ (m_bot user = false -> (threads_find user w).1 = inr None ->
      threads (contact ctx category user w).2
      = (threads w ++
         [{| th_id := m_id user; th_recipient := user;
             th_creator := author ctx; th_category := category;
             th_channel_mention := channel_for w (m_id user) |}])%list).
Proof.
  unfold contact, threads_find, threads_create. run.
  destruct (m_bot user); cbn.
  - repeat split; done.
  - destruct (List.find _ (threads w)) as [t0|]; cbn; repeat split; done.
Qed.

Lemma contact_raises_witness :
  (contact ctx1 None bot_member (world_of config0)).1
  = inl (UnboundLocalError "_")
  /\ trace (contact ctx1 None bot_member (world_of config0)).2 = []
  /\ threads (contact ctx1 None bot_member (world_of config0)).2 = []
  /\ threads (contact ctx1 None member1 (world_of config0)).2
     = [{| th_id := 42; th_recipient := member1; th_creator := member0;
           th_category := None; th_channel_mention := "<#42>" |}].
Proof.
  destruct (contact_raises ctx1 None bot_member (world_of config0))
    as (Hraise & Htrace & Hbot & _ & _).
  destruct (contact_raises ctx1 None member1 (world_of config0))
    as (_ & _ & _ & _ & Hnew).
  split; [exact Hraise |]. split; [exact Htrace |].
  split; [apply Hbot; reflexivity |].
  rewrite Hnew; reflexivity.
Defined.

(** *** C5 *)

Lemma set_notification_squad_same (c : Config) :
  set_notification_squad (notification_squad c) c = c.
Proof. by destruct c. Qed.

Lemma set_subscriptions_same (c : Config) :
  set_subscriptions (subscriptions c) c = c.
Proof. by destruct c. Qed.

Lemma squad_frame_refl (ctx : Ctx) (w : World) : squad_frame ctx w w.
Proof. split; [by rewrite set_notification_squad_same | done]. Qed.

Lemma subscriptions_frame_refl (ctx : Ctx) (w : World) :
  subscriptions_frame ctx w w.
Proof. split; [by rewrite set_subscriptions_same | done]. Qed.

(** Case analysis shared by the four commands once the thread is known:
    whether the thread has an entry, and whether the mention is in it. *)
Ltac frame_cases :=
  match goal with
  | |- context [has_key ?k ?m] =>
      let Hk := fresh "Hk" in
      let l := fresh "l" in
      destruct (has_key k m) eqn:Hk; cbn;
      [ apply has_key_true in Hk; destruct Hk as [l Hk]; rewrite Hk
      | rewrite lookup_insert_eq ]
  end;
  cbn;
  try match goal with
      | |- context [Str.inb ?x ?l] => destruct (Str.inb x l)
      end;
  cbn;
  (split; [reflexivity |]);
  intros k Hne;
  repeat (rewrite lookup_insert_ne by (intros ->; by apply Hne));
  reflexivity.

Ltac frame_proof frame_refl :=
  let Ht := fresh "Ht" in
  let t := fresh "t" in
  unfold thread_id;
  match goal with
  | |- context [ctx_thread ?ctx] =>
      destruct (ctx_thread ctx) as [t|] eqn:Ht; run;
      [| apply frame_refl ]
  end;
  try unfold squad_frame; try unfold subscriptions_frame;
  unfold thread_key; rewrite Ht; cbn;
  generalize (Str.of_int (th_id t)); intros key;
  match goal with
  | w : World |- _ =>
      destruct w as [[sn al ns su bu bw dm] sv pf th cf uc ua tr]
  end;
  cbn; frame_cases.

Lemma notify_frame_ok (ctx : Ctx) (a : option Mentionable) (w : World) :
  squad_frame ctx w (notify ctx a w).2.
Proof.
  unfold notify.
  destruct (parse_user_or_role ctx a) as [m|]; [| apply squad_frame_refl].
  frame_proof squad_frame_refl.
Qed.

Lemma unnotify_frame_ok (ctx : Ctx) (a : option Mentionable) (w : World) :
  squad_frame ctx w (unnotify ctx a w).2.
Proof.
  unfold unnotify.
  generalize (match parse_user_or_role ctx a with
              | Some m => m
              | None => "`" +:+ str_of_arg a +:+ "`"
              end).
  intros m. frame_proof squad_frame_refl.
Qed.

Lemma subscribe_frame_ok (ctx : Ctx) (a : option Mentionable) (w : World) :
  subscriptions_frame ctx w (subscribe ctx a w).2.
Proof.
  unfold subscribe.
  destruct (parse_user_or_role ctx a) as [m|];
    [| apply subscriptions_frame_refl].
  frame_proof subscriptions_frame_refl.
Qed.

Lemma unsubscribe_frame_ok (ctx : Ctx) (a : option Mentionable) (w : World) :
  subscriptions_frame ctx w (unsubscribe ctx a w).2.
Proof.
  unfold unsubscribe.
  generalize (match parse_user_or_role ctx a with
              | Some m => m
              | None => "`" +:+ str_of_arg a +:+ "`"
              end).
  intros m. frame_proof subscriptions_frame_refl.
Qed.

(** C5. Whatever the thread and the argument, and whether they return or
    raise, [notify] and [unnotify] change nothing of the configuration but
    the field [notification_squad], and in it nothing but the entry under
    [str(thread.id)]; [subscribe] and [unsubscribe] change nothing but the
    field [subscriptions], and in it nothing but the entry under
    [str(thread.id)]. *)
Theorem notification_commands_frame
    (ctx : Ctx) (a : option Mentionable) (w : World) :
  squad_frame ctx w (notify ctx a w).2
  /\ squad_frame ctx w (unnotify ctx a w).2
  /\ subscriptions_frame ctx w (subscribe ctx a w).2
  /\ subscriptions_frame ctx w (unsubscribe ctx a w).2.
Proof.
  split; [apply notify_frame_ok |].
  split; [apply unnotify_frame_ok |].
  split; [apply subscribe_frame_ok | apply unsubscribe_frame_ok].
Qed.

Lemma notification_commands_frame_witness :
  thread_key ctx1 <> Some "5"
  /\ notification_squad
       (config (notify ctx1 None
                  (world_of (set_notification_squad {["5" := ["<@9>"]]}
                               config0))).2) !! "5"
     = Some ["<@9>"]
  /\ notification_squad
       (config (notify ctx1 None
                  (world_of (set_notification_squad {["5" := ["<@9>"]]}
                               config0))).2) !! "42"
     = Some ["<@7>"].
Proof.
  assert (H : thread_key ctx1 <> Some "5") by (vm_compute; discriminate).
  split; [exact H |]. split; [| reflexivity].
  destruct (notification_commands_frame ctx1 None
              (world_of (set_notification_squad {["5" := ["<@9>"]]} config0)))
    as ((_ & Hframe) & _).
  rewrite (Hframe "5" H). reflexivity.
Defined.

(** *** C6 *)

Lemma snippet_add_fresh (n v : string) (w : World) :
  snippets (config w) !! n = None ->
  aliases (config w) !! n = None ->
  (String.length n <= 120)%nat ->
  snippet_add n v w
  = (inr tt,
     with_trace
       (trace w ++ [Send CtxChannel
                      (Built (mk_embed (Some "Added snippet") main_color
                                       "Successfully created snippet."))])
       (with_saved (set_snippets (<[n := v]> (snippets (config w))) (config w))
          (with_config
             (set_snippets (<[n := v]> (snippets (config w))) (config w)) w))).
Proof.
  intros Hs Ha Hl. unfold snippet_add. run.
  apply has_key_false in Hs, Ha. rewrite Hs, Ha.
  apply Nat.ltb_ge in Hl. rewrite Hl. reflexivity.
Qed.

Lemma snippet_remove_absent (n : string) (w : World) :
  snippets (config w) !! n = None ->
  snippet_remove n w
  = (inr tt,
     with_trace
       (trace w ++ [Send CtxChannel
                      (NotFoundEmbed n (dom (snippets (config w))) "Snippet")])
       w).
Proof.
  intros Hs. unfold snippet_remove. run.
  apply has_key_false in Hs. rewrite Hs. reflexivity.
Qed.

Lemma snippet_remove_present (n : string) (w : World) :
  is_Some (snippets (config w) !! n) ->
  snippet_remove n w
  = (inr tt,
     with_trace
       (trace w ++ [Send CtxChannel
                      (Built (mk_embed (Some "Removed snippet") main_color
                                ("Snippet `" +:+ n +:+ "` is now deleted.")))])
       (with_saved (set_snippets (delete n (snippets (config w))) (config w))
          (with_config
             (set_snippets (delete n (snippets (config w))) (config w)) w))).
Proof.
  intros Hs. unfold snippet_remove. run.
  apply has_key_true in Hs. rewrite Hs. reflexivity.
Qed.

Lemma set_snippets_same (c : Config) : set_snippets (snippets c) c = c.
Proof. by destruct c. Qed.

Lemma set_snippets_twice (m m' : gmap string string) (c : Config) :
  set_snippets m (set_snippets m' c) = set_snippets m c.
Proof. reflexivity. Qed.

(** C6. For a name that is neither a snippet nor an alias and has at most
    120 characters, [snippet_add] followed by [snippet_remove] of the same
    name both return and leave the snippets (and the whole configuration)
    as they were at the start; [snippet_remove] of a name that is no
    snippet returns, leaves the configuration as it was and sends the
    not-found embed. *)
Theorem snippet_add_remove (n v : string) (w : World) :
  (snippets (config w) !! n = None ->
   aliases (config w) !! n = None ->
   (String.length n <= 120)%nat ->
   returns (snippet_add n v w)
   /\ returns (snippet_remove n (snippet_add n v w).2)
   /\ snippets (config (snippet_remove n (snippet_add n v w).2).2)
      = snippets (config w)
   /\ config (snippet_remove n (snippet_add n v w).2).2 = config w)
  /\
  (snippets (config w) !! n = None ->
   returns (snippet_remove n w)
   /\ config (snippet_remove n w).2 = config w
   /\ sent_only w (snippet_remove n w)
        (NotFoundEmbed n (dom (snippets (config w))) "Snippet")).
Proof.
  split.
  - intros Hs Ha Hl. rewrite (snippet_add_fresh n v w Hs Ha Hl).
    unfold returns. cbn [fst snd]. rewrite snippet_remove_present.
    + cbn [fst snd config with_trace with_saved with_config].
      rewrite set_snippets_twice. cbn [snippets set_snippets].
      rewrite (delete_insert_id _ _ _ Hs), set_snippets_same.
      repeat split; by eexists.
    + cbn. rewrite lookup_insert_eq. eauto.
  - intros Hs. rewrite (snippet_remove_absent n w Hs).
    unfold returns, sent_only. cbn. eauto.
Qed.

Lemma snippet_add_remove_witness :
  snippets (config (snippet_remove "hi"
                      (snippet_add "hi" "new" (world_of config0)).2).2)
  = snippets (config (world_of config0))
  /\ sent_only (world_of config0) (snippet_remove "hi" (world_of config0))
       (NotFoundEmbed "hi" (dom (snippets (config (world_of config0))))
          "Snippet").
Proof.
  assert (Hs : snippets (config (world_of config0)) !! "hi" = None)
    by reflexivity.
  assert (Ha : aliases (config (world_of config0)) !! "hi" = None)
    by reflexivity.
  assert (Hl : (String.length "hi" <= 120)%nat) by (cbn; lia).
  split.
  - apply (proj1 (snippet_add_remove "hi" "new" (world_of config0)) Hs Ha Hl).
  - apply (proj2 (snippet_add_remove "hi" "new" (world_of config0)) Hs).
Defined.

(** *** C7 *)

Lemma mem_get (k : string) (d : Dict.t) :
  Dict.mem k d = match Dict.get k d with Some _ => true | None => false end.
Proof.
  induction d as [| [k0 v0] d IH]; cbn; [done |].
  by destruct (String.eqb k k0).
Qed.

(** [unblock] of a user who is not blocked: one error embed, nothing
    changed. *)
Lemma unblock_not_blocked (ctx : Ctx) (user : option UserLike) (w : World)
    (u : UserLike) :
  target ctx user = Some u ->
  Dict.mem (user_key u) (blocked_users (config w)) = false ->
  unblock ctx user w
  = (inr tt,
     with_trace
       (trace w ++
        [Send CtxChannel
           (Built (mk_embed (Some "Error") error_color
                     (mention_or_id u +:+ " is not blocked.")))])
       w).
Proof.
  unfold target, user_key, unblock. intros Ht Hm.
  destruct user as [u0|]; cbn in Ht;
    [| destruct (ctx_thread ctx) as [t|]; cbn in Ht; [| discriminate]];
    injection Ht as <-; run; cbn in *; rewrite Hm; reflexivity.
Qed.

(** [unblock] of a user blocked by a moderator: the entry is removed, the
    configuration stored, one success embed sent. *)
Lemma unblock_blocked (ctx : Ctx) (user : option UserLike) (w : World)
    (u : UserLike) (msg : string) :
  target ctx user = Some u ->
  Dict.get (user_key u) (blocked_users (config w)) = Some msg ->
  Str.startswith "System Message: " msg = false ->
  unblock ctx user w
  = (inr tt,
     with_trace
       (trace w ++
        [Send CtxChannel
           (Built (mk_embed (Some "Success") main_color
                     (mention_or_id u +:+ " is no longer blocked.")))])
       (with_saved
          (set_blocked_users
             (Dict.pop (user_key u) (blocked_users (config w))) (config w))
          (with_config
             (set_blocked_users
                (Dict.pop (user_key u) (blocked_users (config w))) (config w))
             w))).
Proof.
  unfold target, user_key, unblock. intros Ht Hg Hs.
  destruct user as [u0|]; cbn in Ht;
    [| destruct (ctx_thread ctx) as [t|]; cbn in Ht; [| discriminate]];
    injection Ht as <-; run; cbn in *; rewrite mem_get, Hg; cbn;
    rewrite Hs; reflexivity.
Qed.

(** C7, as the code runs: for a user blocked by the system (the stored
    reason starts with [System Message: ]), [unblock] removes the entry
    and stores the configuration, and then raises [KeyError] while it
    formats the footer, whose fields [{self.bot.prefix}] and [{user.id}]
    name no keyword of the call: nothing is sent. *)
Theorem unblock_system_block_raises (ctx : Ctx) (user : option UserLike)
    (w : World) (u : UserLike) (msg : string) :
  target ctx user = Some u ->
  Dict.get (user_key u) (blocked_users (config w)) = Some msg ->
  Str.startswith "System Message: " msg = true ->
  (unblock ctx user w).1 = inl (KeyError "self")
  /\ Dict.mem (user_key u) (blocked_users (config (unblock ctx user w).2))
     = false
  /\ persisted (unblock ctx user w)
  /\ trace (unblock ctx user w).2 = trace w.
Proof.
  unfold target, user_key, unblock, persisted. intros Ht Hg Hs.
  assert (Hout : forall d, Dict.mem (Str.of_int (u_id u))
                             (Dict.pop (Str.of_int (u_id u)) d) = false).
  { intros d. by rewrite mem_pop, String.eqb_refl. }
  destruct user as [u0|]; cbn in Ht;
    [| destruct (ctx_thread ctx) as [t|]; cbn in Ht; [| discriminate]];
    injection Ht as <-; run; cbn in *; rewrite mem_get, Hg; cbn;
    rewrite Hs; cbn; rewrite Hout; auto.
Qed.

Lemma unblock_system_block_raises_witness :
  (unblock ctx1 (Some user9) (world_of config_system_block)).1
  = inl (KeyError "self")
  /\ blocked_users
       (config (unblock ctx1 (Some user9) (world_of config_system_block)).2)
     = []
  /\ trace (unblock ctx1 (Some user9) (world_of config_system_block)).2 = [].
Proof.
  destruct (unblock_system_block_raises ctx1 (Some user9)
              (world_of config_system_block) user9
              "System Message: New Account. Required to wait for 3 days.")
    as (Hraise & _ & _ & Htrace); [reflexivity | reflexivity | reflexivity |].
  split; [exact Hraise |]. split; [reflexivity | exact Htrace].
Defined.

(** *** C8 *)

(** C8. [parse_user_or_role] yields the author's mention for [None]; the
    mention of an object that has one; ["@here"] for ["here"] and
    ["@here"], ["@everyone"] for ["everyone"] and ["@everyone"]; and
    [None] for every other string. *)
Theorem parse_user_or_role_spec (ctx : Ctx) :
  parse_user_or_role ctx None = Some (m_mention (author ctx))
  /\ (forall a m, mention_attr a = Some m ->
        parse_user_or_role ctx (Some a) = Some m)
  /\ parse_user_or_role ctx (Some (AStr "here")) = Some "@here"
  /\ parse_user_or_role ctx (Some (AStr "@here")) = Some "@here"
  /\ parse_user_or_role ctx (Some (AStr "everyone")) = Some "@everyone"
  /\ parse_user_or_role ctx (Some (AStr "@everyone")) = Some "@everyone"
  /\ (forall s, s <> "here" -> s <> "everyone" -> s <> "@here" ->
        s <> "@everyone" ->
        parse_user_or_role ctx (Some (AStr s)) = None).
Proof.
  repeat split; try reflexivity.
  - intros a m H. unfold parse_user_or_role. by rewrite H.
  - intros s H1 H2 H3 H4. unfold parse_user_or_role. cbn.
    apply String.eqb_neq in H1, H2, H3, H4.
    by rewrite H1, H2, H3, H4.
Qed.

Lemma parse_user_or_role_spec_witness :
  parse_user_or_role
    {| author := {| m_id := 7; m_name := "mod"; m_discriminator := "0001";
                    m_mention := "<@7>"; m_bot := false |};
       ctx_thread := None |}
    (Some (ARole {| r_name := "staff"; r_mention := "<@&9>" |}))
  = Some "<@&9>"
  /\ parse_user_or_role
       {| author := {| m_id := 7; m_name := "mod"; m_discriminator := "0001";
                       m_mention := "<@7>"; m_bot := false |};
          ctx_thread := None |}
       (Some (AStr "nobody"))
     = None.
Proof.
  match goal with
  | |- parse_user_or_role ?c _ = _ /\ _ =>
      destruct (parse_user_or_role_spec c)
        as (_ & Hmention & _ & _ & _ & _ & Hother)
  end.
  split.
  - apply Hmention. reflexivity.
  - apply Hother; discriminate.
Defined.

(** *** C9 *)

(** C9, as the code runs: for a name that is a snippet, [snippet_edit]
    stores the new value and updates the stored configuration, and then
    raises [NameError] on [f_], a name the file binds nowhere, before any
    embed is built: nothing is sent. *)
Theorem snippet_edit_raises (n v old : string) (w : World) :
  snippets (config w) !! n = Some old ->
  (snippet_edit n v w).1 = inl (NameError "f_")
  /\ snippets (config (snippet_edit n v w).2) !! n = Some v
  /\ persisted (snippet_edit n v w)
  /\ trace (snippet_edit n v w).2 = trace w.
Proof.
  intros Hs. unfold snippet_edit, persisted. run.
  assert (Hk : has_key n (snippets (config w)) = true)
    by (apply has_key_true; eauto).
  rewrite Hk. cbn. rewrite lookup_insert_eq. auto.
Qed.

Lemma snippet_edit_raises_witness :
  (snippet_edit "hi" "new"
     (world_of (set_snippets {["hi" := "old"]} config0))).1
  = inl (NameError "f_").
Proof.
  apply (snippet_edit_raises "hi" "new" "old"
           (world_of (set_snippets {["hi" := "old"]} config0))).
  reflexivity.
Defined.

(** *** C10 *)




(** C10, as the code runs: with one blocked user whose reason has 2045
    characters, [blocked] returns and hands the paginator two embeds, and
    the description of the second, which is the line of that user, has
    2050 characters. *)
Theorem blocked_description_too_long :
  exists first second,
    blocked (world_of config_long_reason)
    = (inr tt,
       with_trace [Paginate [first; second]] (world_of config_long_reason))
    /\ description first = EmptyString
    /\ description second = "1 - " +:+ long_reason +:+ newline
    /\ String.length (description second) = 2050%nat.
Proof.
  eexists _, _. split; [vm_compute; reflexivity |].
  split; [reflexivity |]. split; vm_compute; reflexivity.
Qed.

(** * Further properties of the handlers *)

(** ** The notification and subscription commands, in full *)

(** Runs one of the four commands inside a thread, on both cases of the
    entry of the thread. *)
Ltac squad_run Ht :=
  unfold thread_id; rewrite Ht; run; cbn;
  match goal with
  | |- context [Str.of_int ?n] => generalize (Str.of_int n); intros key
  end;
  match goal with
  | w : World |- _ =>
      destruct w as [[sn al ns su bu bw dm] sv pf th cf uc ua tr]
  end;
  cbn;
  match goal with
  | |- context [has_key ?k ?m] =>
      let Hk := fresh "Hk" in
      unfold has_key; destruct (m !! k) as [l|] eqn:Hk; cbn;
      [ rewrite ?Hk | rewrite ?lookup_insert_eq ]
  end;
  cbn;
  try match goal with
      | |- context [Str.inb ?x ?l] => destruct (Str.inb x l)
      end;
  cbn;
  rewrite ?insert_insert_eq;
  try match goal with
      | H : ?m !! ?k = Some ?l |- _ => rewrite (insert_id m k l H)
      end;
  try reflexivity.

Lemma notify_run (ctx : Ctx) (a : option Mentionable) (w : World)
    (t : Thread) (m : string) :
  ctx_thread ctx = Some t ->
  parse_user_or_role ctx a = Some m ->
  notify ctx a w
  = let key := Str.of_int (th_id t) in
    let l := default [] (notification_squad (config w) !! key) in
    if Str.inb m l then
      (inr tt,
       with_trace
         (trace w ++
          [Send CtxChannel
             (Built (mk_embed None error_color
                       (m +:+ " is already going to be mentioned.")))])
         w)
    else
      let c := set_notification_squad
                 (<[key := (l ++ [m])%list]> (notification_squad (config w)))
                 (config w) in
      (inr tt,
       with_trace
         (trace w ++
          [Send CtxChannel
             (Built (mk_embed None main_color
                       (m +:+ " will be mentioned on the next message received.")))])
         (with_saved c (with_config c w))).
Proof.
  intros Ht Hp. unfold notify. rewrite Hp. squad_run Ht.
Qed.

Lemma subscribe_run (ctx : Ctx) (a : option Mentionable) (w : World)
    (t : Thread) (m : string) :
  ctx_thread ctx = Some t ->
  parse_user_or_role ctx a = Some m ->
  subscribe ctx a w
  = let key := Str.of_int (th_id t) in
    let l := default [] (subscriptions (config w) !! key) in
    if Str.inb m l then
      (inr tt,
       with_trace
         (trace w ++
          [Send CtxChannel
             (Built (mk_embed None error_color
                       (m +:+ " is already subscribed to this thread.")))])
         w)
    else
      let c := set_subscriptions
                 (<[key := (l ++ [m])%list]> (subscriptions (config w)))
                 (config w) in
      (inr tt,
       with_trace
         (trace w ++
          [Send CtxChannel
             (Built (mk_embed None main_color
                       (m +:+ " will now be notified of all messages received.")))])
         (with_saved c (with_config c w))).
Proof.
  intros Ht Hp. unfold subscribe. rewrite Hp. squad_run Ht.
Qed.

Lemma unnotify_run (ctx : Ctx) (a : option Mentionable) (w : World)
    (t : Thread) :
  ctx_thread ctx = Some t ->
  unnotify ctx a w
  = let m := match parse_user_or_role ctx a with
             | Some m => m
             | None => "`" +:+ str_of_arg a +:+ "`"
             end in
    let key := Str.of_int (th_id t) in
    let l := default [] (notification_squad (config w) !! key) in
    if Str.inb m l then
      let c := set_notification_squad
                 (<[key := Str.remove_first m l]> (notification_squad (config w)))
                 (config w) in
      (inr tt,
       with_trace
         (trace w ++
          [Send CtxChannel
             (Built (mk_embed None main_color
                       (m +:+ " will no longer be notified.")))])
         (with_saved c (with_config c w)))
    else
      (inr tt,
       with_trace
         (trace w ++
          [Send CtxChannel
             (Built (mk_embed None error_color
                       (m +:+ " does not have a pending notification.")))])
         (with_config
            (set_notification_squad
               (<[key := l]> (notification_squad (config w))) (config w))
            w)).
Proof.
  intros Ht. unfold unnotify.
  generalize (match parse_user_or_role ctx a with
              | Some m => m
              | None => "`" +:+ str_of_arg a +:+ "`"
              end).
  intros m. squad_run Ht.
Qed.

Lemma unsubscribe_run (ctx : Ctx) (a : option Mentionable) (w : World)
    (t : Thread) :
  ctx_thread ctx = Some t ->
  unsubscribe ctx a w
  = let m := match parse_user_or_role ctx a with
             | Some m => m
             | None => "`" +:+ str_of_arg a +:+ "`"
             end in
    let key := Str.of_int (th_id t) in
    let l := default [] (subscriptions (config w) !! key) in
    if Str.inb m l then
      let c := set_subscriptions
                 (<[key := Str.remove_first m l]> (subscriptions (config w)))
                 (config w) in
      (inr tt,
       with_trace
         (trace w ++
          [Send CtxChannel
             (Built (mk_embed None main_color
                       (m +:+ " is now unsubscribed to this thread.")))])
         (with_saved c (with_config c w)))
    else
      (inr tt,
       with_trace
         (trace w ++
          [Send CtxChannel
             (Built (mk_embed None error_color
                       (m +:+ " is not already subscribed to this thread.")))])
         (with_config
            (set_subscriptions
               (<[key := l]> (subscriptions (config w))) (config w))
            w)).
Proof.
  intros Ht. unfold unsubscribe.
  generalize (match parse_user_or_role ctx a with
              | Some m => m
              | None => "`" +:+ str_of_arg a +:+ "`"
              end).
  intros m. squad_run Ht.
Qed.

Lemma entry_insert_eq (m : gmap string (list string)) (key : string)
    (l : list string) :
  entry (<[key := l]> m) key = l.
Proof. unfold entry. by rewrite lookup_insert_eq. Qed.

Lemma entry_insert_ne (m : gmap string (list string)) (key k : string)
    (l : list string) :
  key <> k -> entry (<[key := l]> m) k = entry m k.
Proof. intros H. unfold entry. by rewrite lookup_insert_ne. Qed.

(** X1. Inside a thread and with an argument that has a mention, [notify]
    and [subscribe] append the mention to the list of the thread unless
    it is there already. *)
Theorem notify_subscribe_add (ctx : Ctx) (a : option Mentionable) (w : World)
    (t : Thread) (m : string) :
  ctx_thread ctx = Some t ->
  parse_user_or_role ctx a = Some m ->
  adds_once notification_squad (Str.of_int (th_id t)) m w (notify ctx a w)
  /\ adds_once subscriptions (Str.of_int (th_id t)) m w (subscribe ctx a w).
Proof.
  intros Ht Hp. unfold adds_once, returns, persisted, sent_only,
    success_embed, error_embed.
  rewrite (notify_run ctx a w t m Ht Hp), (subscribe_run ctx a w t m Ht Hp).
  cbn zeta. fold (entry (notification_squad (config w)) (Str.of_int (th_id t))).
  fold (entry (subscriptions (config w)) (Str.of_int (th_id t))).
  split.
  - destruct (Str.inb m (entry (notification_squad (config w)) _)); cbn;
      rewrite ?entry_insert_eq;
      (split; [by eexists |]); (split; [done |]);
      split; intros H; try discriminate; finish.
  - destruct (Str.inb m (entry (subscriptions (config w)) _)); cbn;
      rewrite ?entry_insert_eq;
      (split; [by eexists |]); (split; [done |]);
      split; intros H; try discriminate; finish.
Qed.

Lemma notify_subscribe_add_witness :
  entry (notification_squad (config (notify ctx1 None (world_of config0)).2))
        "42"
  = ["<@7>"]
  /\ entry (subscriptions
              (config (subscribe ctx1 (Some (AStr "here"))
                         (world_of (set_subscriptions {["42" := ["@here"]]}
                                      config0))).2))
           "42"
     = ["@here"].
Proof.
  destruct (notify_subscribe_add ctx1 None (world_of config0) thread1 "<@7>"
              eq_refl eq_refl) as ((_ & Hn & _) & _).
  destruct (notify_subscribe_add ctx1 (Some (AStr "here"))
              (world_of (set_subscriptions {["42" := ["@here"]]} config0))
              thread1 "@here" eq_refl eq_refl) as (_ & (_ & Hs & _)).
  split; [exact Hn | exact Hs].
Defined.

(** X2. Inside a thread, [unnotify] and [unsubscribe] remove the first
    occurrence of the mention they look for from the list of the thread;
    when the mention is not there they send an error embed and store
    nothing. *)
Theorem unnotify_unsubscribe_remove (ctx : Ctx) (a : option Mentionable)
    (w : World) (t : Thread) :
  ctx_thread ctx = Some t ->
  removes_once notification_squad (Str.of_int (th_id t)) (sought ctx a) w
    (unnotify ctx a w)
  /\ removes_once subscriptions (Str.of_int (th_id t)) (sought ctx a) w
       (unsubscribe ctx a w).
Proof.
  intros Ht. unfold removes_once, returns, persisted, sent_only,
    success_embed, error_embed.
  rewrite (unnotify_run ctx a w t Ht), (unsubscribe_run ctx a w t Ht).
  cbn zeta. fold (sought ctx a).
  fold (entry (notification_squad (config w)) (Str.of_int (th_id t))).
  fold (entry (subscriptions (config w)) (Str.of_int (th_id t))).
  split.
  - destruct (Str.inb (sought ctx a) (entry (notification_squad (config w)) _));
      cbn; rewrite ?entry_insert_eq;
      (split; [by eexists |]); (split; [done |]);
      split; intros H; try discriminate; finish.
  - destruct (Str.inb (sought ctx a) (entry (subscriptions (config w)) _));
      cbn; rewrite ?entry_insert_eq;
      (split; [by eexists |]); (split; [done |]);
      split; intros H; try discriminate; finish.
Qed.

Lemma unnotify_unsubscribe_remove_witness :
  entry (notification_squad
           (config (unnotify ctx1 None
                      (world_of (set_notification_squad
                                   {["42" := ["<@9>"; "<@7>"; "<@7>"]]}
                                   config0))).2))
        "42"
  = ["<@9>"; "<@7>"].
Proof.
  destruct (unnotify_unsubscribe_remove ctx1 None
              (world_of (set_notification_squad
                           {["42" := ["<@9>"; "<@7>"; "<@7>"]]} config0))
              thread1 eq_refl) as ((_ & Hn & _) & _).
  exact Hn.
Defined.

Lemma inb_false (x : string) (l : list string) :
  Str.inb x l = false <-> x ∉ l.
Proof.
  induction l as [| y l IH]; cbn.
  - split; [intros _; apply not_elem_of_nil | done].
  - rewrite not_elem_of_cons. destruct (String.eqb x y) eqn:E.
    + apply String.eqb_eq in E. split; [done | intros [H _]; by destruct H].
    + apply String.eqb_neq in E. rewrite IH. tauto.
Qed.

Lemma elem_of_remove_first (x y : string) (l : list string) :
  x ∈ Str.remove_first y l -> x ∈ l.
Proof.
  induction l as [| z l IH]; cbn; [done |].
  destruct (String.eqb y z); [intros H; apply elem_of_cons; by right |].
  rewrite !elem_of_cons. intros [-> | H]; [by left | right; by apply IH].
Qed.

Lemma NoDup_remove_first (y : string) (l : list string) :
  NoDup l -> NoDup (Str.remove_first y l).
Proof.
  induction 1 as [| z l Hz Hl IH]; cbn; [constructor |].
  destruct (String.eqb y z); [done |].
  constructor; [| done]. intros H. apply Hz. by eapply elem_of_remove_first.
Qed.

Lemma NoDup_add_once (m : string) (l : list string) :
  NoDup l -> NoDup (if Str.inb m l then l else (l ++ [m])%list).
Proof.
  intros Hl. destruct (Str.inb m l) eqn:E; [done |].
  apply inb_false in E. apply NoDup_app. split; [done |].
  split; [| apply NoDup_singleton].
  intros x Hx ->%list_elem_of_singleton. done.
Qed.

Lemma distinct_entries_insert (m : gmap string (list string)) (key : string)
    (l : list string) :
  distinct_entries m -> NoDup l -> distinct_entries (<[key := l]> m).
Proof.
  intros Hm Hl k. destruct (decide (key = k)) as [<- | Hne].
  - by rewrite entry_insert_eq.
  - rewrite entry_insert_ne by done. apply Hm.
Qed.

Lemma squad_frame_outside (ctx : Ctx) (w w' : World) :
  ctx_thread ctx = None -> squad_frame ctx w w' ->
  notification_squad (config w') = notification_squad (config w).
Proof.
  intros Ht [_ H]. apply map_eq. intros k. apply H.
  unfold thread_key. by rewrite Ht.
Qed.

Lemma subscriptions_frame_outside (ctx : Ctx) (w w' : World) :
  ctx_thread ctx = None -> subscriptions_frame ctx w w' ->
  subscriptions (config w') = subscriptions (config w).
Proof.
  intros Ht [_ H]. apply map_eq. intros k. apply H.
  unfold thread_key. by rewrite Ht.
Qed.

(** X3. If no list of [notification_squad] holds a mention twice, none
    does after [notify] or [unnotify], whatever the context and the
    argument; the same for [subscriptions] under [subscribe] and
    [unsubscribe]. *)
Theorem mentions_stay_distinct (ctx : Ctx) (a : option Mentionable)
    (w : World) :
  (distinct_entries (notification_squad (config w)) ->
   distinct_entries (notification_squad (config (notify ctx a w).2))
   /\ distinct_entries (notification_squad (config (unnotify ctx a w).2)))
  /\ (distinct_entries (subscriptions (config w)) ->
      distinct_entries (subscriptions (config (subscribe ctx a w).2))
      /\ distinct_entries (subscriptions (config (unsubscribe ctx a w).2))).
Proof.
  destruct (ctx_thread ctx) as [t|] eqn:Ht.
  - split; intros Hd; split.
    + destruct (parse_user_or_role ctx a) as [m|] eqn:Hp.
      * rewrite (notify_run ctx a w t m Ht Hp). cbn zeta.
        pose proof (NoDup_add_once m _ (Hd (Str.of_int (th_id t)))) as Hn.
        unfold entry in Hn.
        destruct (Str.inb m _); cbn; [done |].
        by apply distinct_entries_insert.
      * unfold notify. by rewrite Hp.
    + rewrite (unnotify_run ctx a w t Ht). cbn zeta.
      pose proof (Hd (Str.of_int (th_id t))) as Hn. unfold entry in Hn.
      destruct (Str.inb _ _); cbn; apply distinct_entries_insert; try done.
      by apply NoDup_remove_first.
    + destruct (parse_user_or_role ctx a) as [m|] eqn:Hp.
      * rewrite (subscribe_run ctx a w t m Ht Hp). cbn zeta.
        pose proof (NoDup_add_once m _ (Hd (Str.of_int (th_id t)))) as Hn.
        unfold entry in Hn.
        destruct (Str.inb m _); cbn; [done |].
        by apply distinct_entries_insert.
      * unfold subscribe. by rewrite Hp.
    + rewrite (unsubscribe_run ctx a w t Ht). cbn zeta.
      pose proof (Hd (Str.of_int (th_id t))) as Hn. unfold entry in Hn.
      destruct (Str.inb _ _); cbn; apply distinct_entries_insert; try done.
      by apply NoDup_remove_first.
  - split; intros Hd; split.
    + by rewrite (squad_frame_outside ctx w _ Ht (notify_frame_ok ctx a w)).
    + by rewrite (squad_frame_outside ctx w _ Ht (unnotify_frame_ok ctx a w)).
    + by rewrite (subscriptions_frame_outside ctx w _ Ht
                    (subscribe_frame_ok ctx a w)).
    + by rewrite (subscriptions_frame_outside ctx w _ Ht
                    (unsubscribe_frame_ok ctx a w)).
Qed.

Lemma mentions_stay_distinct_witness :
  distinct_entries
    (notification_squad
       (config (notify ctx1 None
                  (world_of (set_notification_squad {["42" := ["<@7>"]]}
                               config0))).2)).
Proof.
  assert (Hd : distinct_entries
                 ({["42" := ["<@7>"]]} : gmap string (list string))).
  { intros k. unfold entry. destruct (decide ("42" = k)) as [<- | Hne].
    - rewrite lookup_singleton_eq. apply NoDup_singleton.
    - rewrite lookup_singleton_ne by done. constructor. }
  exact (proj1 (proj1 (mentions_stay_distinct ctx1 None
                         (world_of (set_notification_squad
                                      {["42" := ["<@7>"]]} config0))) Hd)).
Defined.

Lemma remove_first_snoc (m : string) (l : list string) :
  Str.inb m l = false -> Str.remove_first m (l ++ [m]) = l.
Proof.
  induction l as [| y l IH]; cbn.
  - by rewrite String.eqb_refl.
  - destruct (String.eqb m y); [done |]. intros H. by rewrite IH.
Qed.

(** X4. Inside a thread, [notify] of a mention that is not pending
    followed by [unnotify] with the same argument leaves the thread with
    the list it had, and [notification_squad] as it was if the thread had
    an entry; the same for [subscribe] followed by [unsubscribe]. *)
Theorem notify_then_unnotify (ctx : Ctx) (a : option Mentionable) (w : World)
    (t : Thread) (m : string) :
  ctx_thread ctx = Some t ->
  parse_user_or_role ctx a = Some m ->
  (Str.inb m (entry (notification_squad (config w)) (Str.of_int (th_id t)))
   = false ->
   notification_squad (config (unnotify ctx a (notify ctx a w).2).2)
   = <[Str.of_int (th_id t)
       := entry (notification_squad (config w)) (Str.of_int (th_id t))]>
       (notification_squad (config w))
   /\ (is_Some (notification_squad (config w) !! Str.of_int (th_id t)) ->
       notification_squad (config (unnotify ctx a (notify ctx a w).2).2)
       = notification_squad (config w)))
  /\ (Str.inb m (entry (subscriptions (config w)) (Str.of_int (th_id t)))
      = false ->
      subscriptions (config (unsubscribe ctx a (subscribe ctx a w).2).2)
      = <[Str.of_int (th_id t)
          := entry (subscriptions (config w)) (Str.of_int (th_id t))]>
          (subscriptions (config w))
      /\ (is_Some (subscriptions (config w) !! Str.of_int (th_id t)) ->
          subscriptions (config (unsubscribe ctx a (subscribe ctx a w).2).2)
          = subscriptions (config w))).
Proof.
  intros Ht Hp.
  assert (Hid : forall (f : gmap string (list string)) k,
             is_Some (f !! k) -> <[k := entry f k]> f = f).
  { intros f k [l Hl]. unfold entry. rewrite Hl. by apply insert_id. }
  assert (Hin : forall l, Str.inb m (l ++ [m]) = true).
  { intros l. rewrite inb_snoc, String.eqb_refl. apply orb_true_r. }
  split; intros Hm.
  - assert (E : notification_squad
                  (config (unnotify ctx a (notify ctx a w).2).2)
                = <[Str.of_int (th_id t)
                    := entry (notification_squad (config w))
                             (Str.of_int (th_id t))]>
                    (notification_squad (config w))).
    { rewrite (notify_run ctx a w t m Ht Hp). cbn zeta.
      fold (entry (notification_squad (config w)) (Str.of_int (th_id t))).
      rewrite Hm. rewrite (unnotify_run ctx a _ t Ht). cbn zeta.
      rewrite Hp. cbn. rewrite lookup_insert_eq. cbn.
      rewrite Hin, (remove_first_snoc _ _ Hm). cbn.
      by rewrite insert_insert_eq. }
    split; [exact E |]. intros Hs. rewrite E. by apply Hid.
  - assert (E : subscriptions
                  (config (unsubscribe ctx a (subscribe ctx a w).2).2)
                = <[Str.of_int (th_id t)
                    := entry (subscriptions (config w))
                             (Str.of_int (th_id t))]>
                    (subscriptions (config w))).
    { rewrite (subscribe_run ctx a w t m Ht Hp). cbn zeta.
      fold (entry (subscriptions (config w)) (Str.of_int (th_id t))).
      rewrite Hm. rewrite (unsubscribe_run ctx a _ t Ht). cbn zeta.
      rewrite Hp. cbn. rewrite lookup_insert_eq. cbn.
      rewrite Hin, (remove_first_snoc _ _ Hm). cbn.
      by rewrite insert_insert_eq. }
    split; [exact E |]. intros Hs. rewrite E. by apply Hid.
Qed.

Lemma notify_then_unnotify_witness :
  notification_squad
    (config (unnotify ctx1 None
               (notify ctx1 None
                  (world_of (set_notification_squad {["42" := ["<@9>"]]}
                               config0))).2).2)
  = {["42" := ["<@9>"]]}.
Proof.
  destruct (notify_then_unnotify ctx1 None
              (world_of (set_notification_squad {["42" := ["<@9>"]]} config0))
              thread1 "<@7>" eq_refl eq_refl) as (Hn & _).
  destruct (Hn eq_refl) as (_ & Hsame). apply Hsame. by exists ["<@9>"].
Defined.

(** X5. [notify] and [subscribe] reject an argument that has no mention
    (a string other than the four names, an object without [mention]):
    they raise [BadArgument] naming the argument, inside a thread or not,
    and leave the bot as it was. *)
Theorem notify_subscribe_reject (ctx : Ctx) (a : option Mentionable)
    (w : World) :
  parse_user_or_role ctx a = None ->
  notify ctx a w
  = (inl (BadArgument (str_of_arg a +:+ " is not a valid role.")), w)
  /\ subscribe ctx a w
     = (inl (BadArgument (str_of_arg a +:+ " is not a valid role.")), w).
Proof.
  intros Hp. unfold notify, subscribe. rewrite Hp. by split.
Qed.

Lemma notify_subscribe_reject_witness :
  notify ctx1 (Some (AStr "moderators")) (world_of config0)
  = (inl (BadArgument "moderators is not a valid role."), world_of config0).
Proof.
  apply (notify_subscribe_reject ctx1 (Some (AStr "moderators"))
           (world_of config0)).
  reflexivity.
Defined.

(** ** [block], [unblock] and [blocked whitelist], in full *)

Lemma get_set_eq (k v : string) (d : Dict.t) :
  Dict.get k (Dict.set k v d) = Some v.
Proof.
  induction d as [| [k0 v0] d IH]; cbn.
  - by rewrite String.eqb_refl.
  - destruct (String.eqb k k0) eqn:E; cbn; rewrite E; [done | exact IH].
Qed.

Lemma get_set_ne (k k' v : string) (d : Dict.t) :
  k <> k' -> Dict.get k (Dict.set k' v d) = Dict.get k d.
Proof.
  intros Hne. apply String.eqb_neq in Hne.
  induction d as [| [k0 v0] d IH]; cbn.
  - by rewrite Hne.
  - destruct (String.eqb k' k0) eqn:E; cbn.
    + apply String.eqb_eq in E. subst k0. by rewrite Hne.
    + by rewrite IH.
Qed.

Lemma pop_absent (k : string) (d : Dict.t) :
  Dict.mem k d = false -> Dict.pop k d = d.
Proof.
  induction d as [| [k0 v0] d IH]; cbn; [done |].
  destruct (String.eqb k k0); [done |]. intros H. by rewrite IH.
Qed.

Lemma pop_set (k v : string) (d : Dict.t) :
  Dict.mem k d = false -> Dict.pop k (Dict.set k v d) = d.
Proof.
  induction d as [| [k0 v0] d IH]; cbn.
  - by rewrite String.eqb_refl.
  - destruct (String.eqb k k0) eqn:E; [done |]. intros H. cbn.
    by rewrite E, IH.
Qed.

(** What [block] does for a user who is not whitelisted, when it does not
    reject the reason. *)
Lemma block_success (esc : string -> string) (ctx : Ctx)
    (user : option UserLike) (after : option After) (w : World) (u : UserLike) :
  target ctx user = Some u ->
  Str.inb (user_key u) (blocked_whitelisted_users (config w)) = false ->
  (after <> None -> Str.contains_char "%" (blocker esc ctx) = false) ->
  exists rest e,
    block esc ctx user after w
    = (inr tt,
       with_trace (trace w ++ [Send CtxChannel (Built e)])
         (with_saved
            (set_blocked_users
               (Dict.set (user_key u) (blocker esc ctx +:+ rest)
                  (blocked_users (config w)))
               (config w))
            (with_config
               (set_blocked_users
                  (Dict.set (user_key u) (blocker esc ctx +:+ rest)
                     (blocked_users (config w)))
                  (config w))
               w)))
    /\ color e = main_color
    /\ (after = None -> rest = ".").
Proof.
  unfold target, user_key, blocker, block. intros Ht Hw Hp.
  assert (Hassoc : forall a b c : string, (a +:+ b) +:+ c = a +:+ (b +:+ c)).
  { intros a b c. induction a as [| x a IH]; [done |].
    change ((String x a +:+ b) +:+ c) with (String x ((a +:+ b) +:+ c)).
    by rewrite IH. }
  destruct user as [u0|]; cbn in Ht;
    [| destruct (ctx_thread ctx) as [t|]; cbn in Ht; [| discriminate]];
    injection Ht as <-; run; cbn in *; rewrite Hw.
  all: destruct after as [a|];
    [ rewrite (Hp ltac:(discriminate)) |]; case_tests;
    eexists _, _; rewrite ?Hassoc; (split; [reflexivity |]); split;
    first [ reflexivity | intros [=] ].
Qed.

(** X6. [block] of a user who is not whitelisted, by an author whose
    escaped name and discriminator hold no [%] when a time or reason is
    given: it returns, the user is a key of the blocked users with a reason
    that starts with [by <name>#<discriminator>] (and is exactly that and
    a full stop when nothing else is given), every other entry and the
    whitelist are as they were, the configuration is stored and one success
    embed is sent. *)
Theorem block_blocks (esc : string -> string) (ctx : Ctx)
    (user : option UserLike) (after : option After) (w : World) (u : UserLike) :
  target ctx user = Some u ->
  Str.inb (user_key u) (blocked_whitelisted_users (config w)) = false ->
  (after <> None -> Str.contains_char "%" (blocker esc ctx) = false) ->
  returns (block esc ctx user after w)
  /\ (exists rest,
        Dict.get (user_key u)
          (blocked_users (config (block esc ctx user after w).2))
        = Some (blocker esc ctx +:+ rest)
        /\ (after = None -> rest = "."))
  /\ (forall k, k <> user_key u ->
        Dict.get k (blocked_users (config (block esc ctx user after w).2))
        = Dict.get k (blocked_users (config w)))
  /\ blocked_whitelisted_users (config (block esc ctx user after w).2)
     = blocked_whitelisted_users (config w)
  /\ persisted (block esc ctx user after w)
  /\ exists e, sent_only w (block esc ctx user after w) e /\ success_embed e.
Proof.
  intros Ht Hw Hp.
  destruct (block_success esc ctx user after w u Ht Hw Hp)
    as (rest & e & -> & He & Hrest).
  unfold returns, persisted, sent_only, success_embed. cbn.
  split; [by eexists |].
  split; [exists rest; split; [apply get_set_eq | exact Hrest] |].
  split; [intros k Hk; by apply get_set_ne |].
  split; [done |]. split; [done |]. eauto.
Qed.

Lemma block_blocks_witness :
  Dict.get "9" (blocked_users
                  (config (block (fun s => s) ctx1 (Some user9) None
                             (world_of config0)).2))
  = Some "by mod#0001.".
Proof.
  destruct (block_blocks (fun s => s) ctx1 (Some user9) None
              (world_of config0) user9 eq_refl eq_refl)
    as (_ & (rest & Hget & Hrest) & _); [intros H; by destruct H |].
  rewrite (Hrest eq_refl) in Hget. exact Hget.
Defined.

(** X7. The check for [%] in the reason is made only when a time or
    reason follows the user: for an author whose escaped name or
    discriminator holds a [%], [block] with such an argument raises
    [BadArgument] and leaves the bot as it was, and [block] without one
    blocks the user. *)
Theorem block_percent (esc : string -> string) (ctx : Ctx)
    (user : option UserLike) (a : After) (w : World) (u : UserLike) :
  target ctx user = Some u ->
  Str.inb (user_key u) (blocked_whitelisted_users (config w)) = false ->
  Str.contains_char "%" (blocker esc ctx) = true ->
  block esc ctx user (Some a) w
  = (inl (BadArgument ("The reason contains illegal character " +:+ dq
                       +:+ "%" +:+ dq +:+ ".")), w)
  /\ returns (block esc ctx user None w)
  /\ Dict.get (user_key u)
       (blocked_users (config (block esc ctx user None w).2))
     = Some (blocker esc ctx +:+ ".").
Proof.
  intros Ht Hw Hc. split.
  - revert Ht Hw Hc. unfold target, user_key, blocker, block. intros Ht Hw Hc.
    destruct user as [u0|]; cbn in Ht;
      [| destruct (ctx_thread ctx) as [t|]; cbn in Ht; [| discriminate]];
      injection Ht as <-; run; cbn in *; rewrite Hw, Hc; reflexivity.
  - destruct (block_success esc ctx user None w u Ht Hw)
      as (rest & e & -> & _ & Hrest); [intros H; by destruct H |].
    rewrite (Hrest eq_refl). unfold returns. cbn.
    split; [by eexists | apply get_set_eq].
Qed.

Lemma block_percent_witness :
  (block (fun s => s) {| author := member_percent; ctx_thread := None |}
     (Some user9)
     (Some {| arg := "spam"; dt := 0; now := 0; dt_isoformat := "" |})
     (world_of config0)).1
  = inl (BadArgument ("The reason contains illegal character " +:+ dq
                      +:+ "%" +:+ dq +:+ "."))
  /\ Dict.get "9"
       (blocked_users
          (config (block (fun s => s)
                     {| author := member_percent; ctx_thread := None |}
                     (Some user9) None (world_of config0)).2))
     = Some "by 100%#0008.".
Proof.
  destruct (block_percent (fun s => s)
              {| author := member_percent; ctx_thread := None |}
              (Some user9)
              {| arg := "spam"; dt := 0; now := 0; dt_isoformat := "" |}
              (world_of config0) user9 eq_refl eq_refl eq_refl)
    as (Hraise & _ & Hget).
  split; [by rewrite Hraise | exact Hget].
Defined.

Lemma blocker_not_system (esc : string -> string) (ctx : Ctx) (rest : string) :
  Str.startswith "System Message: " (blocker esc ctx +:+ rest) = false.
Proof. reflexivity. Qed.

(** X8. A block made by [block] can be undone: for a user who is neither
    whitelisted nor blocked, [block] followed by [unblock] of the same
    user returns both times, ends with one success embed and leaves the
    blocked users as they were before the two commands. *)
Theorem block_then_unblock (esc : string -> string) (ctx : Ctx)
    (user : option UserLike) (after : option After) (w : World) (u : UserLike) :
  target ctx user = Some u ->
  Str.inb (user_key u) (blocked_whitelisted_users (config w)) = false ->
  Dict.mem (user_key u) (blocked_users (config w)) = false ->
  (after <> None -> Str.contains_char "%" (blocker esc ctx) = false) ->
  returns (block esc ctx user after w)
  /\ returns (unblock ctx user (block esc ctx user after w).2)
  /\ blocked_users (config (unblock ctx user (block esc ctx user after w).2).2)
     = blocked_users (config w)
  /\ persisted (unblock ctx user (block esc ctx user after w).2)
  /\ exists e, sent_only (block esc ctx user after w).2
                 (unblock ctx user (block esc ctx user after w).2) e
               /\ success_embed e.
Proof.
  intros Ht Hw Hm Hp.
  destruct (block_success esc ctx user after w u Ht Hw Hp)
    as (rest & e & -> & _ & _).
  cbn [fst snd].
  erewrite (unblock_blocked ctx user _ u (blocker esc ctx +:+ rest) Ht);
    [| cbn; apply get_set_eq | apply blocker_not_system].
  unfold returns, persisted, sent_only, success_embed. cbn.
  rewrite (pop_set _ _ _ Hm). finish.
Qed.

Lemma block_then_unblock_witness :
  blocked_users
    (config (unblock ctx1 (Some user9)
               (block (fun s => s) ctx1 (Some user9) None
                  (world_of config0)).2).2)
  = [].
Proof.
  destruct (block_then_unblock (fun s => s) ctx1 (Some user9) None
              (world_of config0) user9 eq_refl eq_refl eq_refl)
    as (_ & _ & Hsame & _); [intros H; by destruct H |].
  exact Hsame.
Defined.

Lemma blocked_whitelist_removes (ctx : Ctx) (user : option UserLike)
    (w : World) (u : UserLike) :
  target ctx user = Some u ->
  Str.inb (user_key u) (blocked_whitelisted_users (config w)) = true ->
  blocked_whitelist ctx user w
  = (inr tt,
     with_trace
       (trace w ++
        [Send CtxChannel
           (Built (mk_embed (Some "Success") main_color
                     (mention_or_id u +:+ " is no longer whitelisted.")))])
       (with_config
          (set_blocked_whitelisted_users
             (Str.remove_first (user_key u)
                (blocked_whitelisted_users (config w)))
             (config w))
          w)).
Proof.
  unfold target, user_key, blocked_whitelist. intros Ht Hw.
  destruct user as [u0|]; cbn in Ht;
    [| destruct (ctx_thread ctx) as [t|]; cbn in Ht; [| discriminate]];
    injection Ht as <-; run; cbn in *; rewrite Hw; reflexivity.
Qed.

Lemma blocked_whitelist_adds_state (ctx : Ctx) (user : option UserLike)
    (w : World) (u : UserLike) :
  target ctx user = Some u ->
  Str.inb (user_key u) (blocked_whitelisted_users (config w)) = false ->
  config (blocked_whitelist ctx user w).2
  = set_blocked_users
      (Dict.pop (user_key u) (blocked_users (config w)))
      (set_blocked_whitelisted_users
         (blocked_whitelisted_users (config w) ++ [user_key u]) (config w))
  /\ saved (blocked_whitelist ctx user w).2
     = config (blocked_whitelist ctx user w).2.
Proof.
  unfold target, user_key, blocked_whitelist. intros Ht Hw.
  destruct user as [u0|]; cbn in Ht;
    [| destruct (ctx_thread ctx) as [t|]; cbn in Ht; [| discriminate]];
    injection Ht as <-; run; cbn in *; rewrite Hw;
    destruct (Dict.mem _ (blocked_users (config w))) eqn:Hm; case_tests;
    rewrite ?(pop_absent _ _ Hm); split; try reflexivity;
    by destruct (config w).
Qed.

(** X9. [blocked whitelist] of a whitelisted user returns with the first
    occurrence of the user removed from the whitelist and one success
    embed sent, leaves the blocked users as they were, and does not store
    the configuration. *)
Theorem unwhitelist_not_stored (ctx : Ctx) (user : option UserLike)
    (w : World) (u : UserLike) :
  target ctx user = Some u ->
  Str.inb (user_key u) (blocked_whitelisted_users (config w)) = true ->
  returns (blocked_whitelist ctx user w)
  /\ blocked_whitelisted_users (config (blocked_whitelist ctx user w).2)
     = Str.remove_first (user_key u) (blocked_whitelisted_users (config w))
  /\ blocked_users (config (blocked_whitelist ctx user w).2)
     = blocked_users (config w)
  /\ saved (blocked_whitelist ctx user w).2 = saved w
  /\ exists e, sent_only w (blocked_whitelist ctx user w) e /\ success_embed e.
Proof.
  intros Ht Hw. rewrite (blocked_whitelist_removes ctx user w u Ht Hw).
  unfold returns, sent_only, success_embed. cbn. finish.
Qed.

Lemma unwhitelist_not_stored_witness :
  blocked_whitelisted_users
    (config (blocked_whitelist ctx1 None (world_of config_blocked9)).2)
  = []
  /\ blocked_whitelisted_users
       (saved (blocked_whitelist ctx1 None (world_of config_blocked9)).2)
     = ["42"].
Proof.
  destruct (unwhitelist_not_stored ctx1 None (world_of config_blocked9)
              (of_member member1) eq_refl eq_refl)
    as (_ & Hw & _ & Hs & _).
  split; [exact Hw | by rewrite Hs].
Defined.

(** X10. Whitelisting a user who is not whitelisted and un-whitelisting
    them again leaves the whitelist in memory as it was at the start,
    while the stored configuration still has the user on the whitelist. *)
Theorem whitelist_toggle (ctx : Ctx) (user : option UserLike) (w : World)
    (u : UserLike) :
  target ctx user = Some u ->
  Str.inb (user_key u) (blocked_whitelisted_users (config w)) = false ->
  returns (blocked_whitelist ctx user (blocked_whitelist ctx user w).2)
  /\ blocked_whitelisted_users
       (config (blocked_whitelist ctx user
                  (blocked_whitelist ctx user w).2).2)
     = blocked_whitelisted_users (config w)
  /\ blocked_whitelisted_users
       (saved (blocked_whitelist ctx user
                 (blocked_whitelist ctx user w).2).2)
     = (blocked_whitelisted_users (config w) ++ [user_key u])%list.
Proof.
  intros Ht Hw.
  destruct (blocked_whitelist_adds_state ctx user w u Ht Hw) as (Hc & Hs).
  assert (Hin : Str.inb (user_key u)
                  (blocked_whitelisted_users
                     (config (blocked_whitelist ctx user w).2)) = true).
  { rewrite Hc. cbn. rewrite inb_snoc, String.eqb_refl. apply orb_true_r. }
  rewrite (blocked_whitelist_removes ctx user _ u Ht Hin).
  unfold returns. cbn. rewrite Hs, Hc. cbn.
  rewrite (remove_first_snoc _ _ Hw). finish.
Qed.

Lemma whitelist_toggle_witness :
  blocked_whitelisted_users
    (config (blocked_whitelist ctx1 (Some user9)
               (blocked_whitelist ctx1 (Some user9)
                  (world_of config0)).2).2)
  = []
  /\ blocked_whitelisted_users
       (saved (blocked_whitelist ctx1 (Some user9)
                 (blocked_whitelist ctx1 (Some user9)
                    (world_of config0)).2).2)
     = ["9"].
Proof.
  destruct (whitelist_toggle ctx1 (Some user9) (world_of config0) user9
              eq_refl eq_refl) as (_ & Hm & Hs).
  split; [exact Hm | exact Hs].
Defined.

(** ** The snippet commands, in full *)

(** X11. [snippet_remove] of a name that is a snippet returns with that
    name gone and every other snippet as it was, the configuration stored
    and one success embed sent. *)
Theorem snippet_remove_removes (n : string) (w : World) :
  is_Some (snippets (config w) !! n) ->
  returns (snippet_remove n w)
  /\ snippets (config (snippet_remove n w).2) !! n = None
  /\ (forall k, k <> n ->
        snippets (config (snippet_remove n w).2) !! k
        = snippets (config w) !! k)
  /\ aliases (config (snippet_remove n w).2) = aliases (config w)
  /\ persisted (snippet_remove n w)
  /\ exists e, sent_only w (snippet_remove n w) e /\ success_embed e.
Proof.
  intros Hs. rewrite (snippet_remove_present n w Hs).
  unfold returns, persisted, sent_only, success_embed. cbn.
  split; [by eexists |]. split; [apply lookup_delete_eq |].
  split; [intros k Hk; by apply lookup_delete_ne |].
  split; [done |]. split; [done |]. eauto.
Qed.

Lemma snippet_remove_removes_witness :
  snippets (config (snippet_remove "hi"
                      (world_of (set_snippets {["hi" := "old"]} config0))).2)
    !! "hi"
  = None.
Proof.
  apply (snippet_remove_removes "hi"
           (world_of (set_snippets {["hi" := "old"]} config0))).
  by exists "old".
Defined.

(** X12. [snippet_edit] of a name that is no snippet returns after sending
    the not-found embed; it stores no value under the name and leaves the
    bot's configuration, in memory and stored, as it was. *)
Theorem snippet_edit_absent (n v : string) (w : World) :
  snippets (config w) !! n = None ->
  snippet_edit n v w
  = (inr tt,
     with_trace
       (trace w ++
        [Send CtxChannel
           (NotFoundEmbed n (dom (snippets (config w))) "Snippet")])
       w).
Proof.
  intros Hs. unfold snippet_edit. run.
  apply has_key_false in Hs. rewrite Hs. reflexivity.
Qed.

Lemma snippet_edit_absent_witness :
  (snippet_edit "hi" "new" (world_of config0)).1 = inr tt
  /\ config (snippet_edit "hi" "new" (world_of config0)).2 = config0.
Proof.
  rewrite (snippet_edit_absent "hi" "new" (world_of config0) eq_refl).
  by split.
Defined.

(** ** [blocked], in full *)














(** ** The DM switches and [isenable] *)

Lemma isenable_run (w : World) :
  isenable w
  = (inr tt,
     with_trace
       (trace w ++
        [Send CtxChannel
           (Built
              (if dm_disabled (config w) =? 1 then
                 mk_embed (Some "New Threads Disabled") error_color
                   "Modmail is not creating new threads."
               else if dm_disabled (config w) =? 2 then
                 mk_embed (Some "All DM Disabled") error_color
                   "Modmail is not accepting any DM messages for new and existing threads."
               else
                 mk_embed (Some "Enabled") main_color
                   "Modmail is accepting all DM messages."))])
       w).
Proof.
  unfold isenable. run.
  destruct (dm_disabled (config w) =? 1); [reflexivity |].
  destruct (dm_disabled (config w) =? 2); reflexivity.
Qed.

(** The embed [isenable] sends in the state [w]. *)
Lemma isenable_sends (w : World) (e : Embed) :
  sent_only w (isenable w) (Built e) <->
  e = (if dm_disabled (config w) =? 1 then
         mk_embed (Some "New Threads Disabled") error_color
           "Modmail is not creating new threads."
       else if dm_disabled (config w) =? 2 then
         mk_embed (Some "All DM Disabled") error_color
           "Modmail is not accepting any DM messages for new and existing threads."
       else
         mk_embed (Some "Enabled") main_color
           "Modmail is accepting all DM messages.").
Proof.
  unfold sent_only. rewrite isenable_run. cbn. split.
  - intros H. apply app_inv_head in H. by injection H as <-.
  - by intros ->.
Qed.

(** X15. [isenable] reports what the switches did: after [enable] it
    sends the embed titled [Enabled]; after [disable all] the one titled
    [All DM Disabled]; after [disable] the one titled
    [New Threads Disabled] when all DM were not disabled before, and
    [All DM Disabled] when they were. It changes nothing of the bot
    itself. *)
Theorem isenable_after_switch (w : World) :
  (exists e, sent_only (enable w).2 (isenable (enable w).2) (Built e)
             /\ title e = Some "Enabled" /\ color e = main_color)
  /\ (exists e, sent_only (disable_all w).2 (isenable (disable_all w).2)
                  (Built e)
                /\ title e = Some "All DM Disabled" /\ color e = error_color)
  /\ (dm_disabled (config w) < 1 ->
      exists e, sent_only (disable w).2 (isenable (disable w).2) (Built e)
                /\ title e = Some "New Threads Disabled"
                /\ color e = error_color)
  /\ (dm_disabled (config w) = 2 ->
      exists e, sent_only (disable w).2 (isenable (disable w).2) (Built e)
                /\ title e = Some "All DM Disabled" /\ color e = error_color)
  /\ config (isenable w).2 = config w
  /\ saved (isenable w).2 = saved w.
Proof.
  destruct (enable_run w) as (_ & Ve & _).
  destruct (disable_run w) as (_ & Vd & _).
  destruct (disable_all_run w) as (_ & Va & _).
  split; [| split; [| split; [| split]]].
  - eexists. split; [apply isenable_sends; reflexivity |]. by rewrite Ve.
  - eexists. split; [apply isenable_sends; reflexivity |]. by rewrite Va.
  - intros H. apply Z.ltb_lt in H. rewrite H in Vd.
    eexists. split; [apply isenable_sends; reflexivity |]. by rewrite Vd.
  - intros H. rewrite H in Vd. change (if 2 <? 1 then 1 else 2) with 2 in Vd.
    eexists. split; [apply isenable_sends; reflexivity |]. by rewrite Vd.
  - rewrite isenable_run. by split.
Qed.

Lemma isenable_after_switch_witness :
  exists e,
    sent_only (disable (world_of config0)).2
      (isenable (disable (world_of config0)).2) (Built e)
    /\ title e = Some "New Threads Disabled".
Proof.
  destruct (isenable_after_switch (world_of config0))
    as (_ & _ & Hlow & _).
  destruct Hlow as (e & Hs & Ht & _); [cbn; lia |].
  exists e. by split.
Defined.

(** ** [find_linked_message], [edit], [delete] and [logs delete] *)

Lemma split_char_single (c : ascii) (s : string) :
  Str.contains_char c s = false -> split_char c s = [s].
Proof.
  induction s as [| d s IH]; cbn; [done |].
  rewrite Ascii.eqb_sym. destruct (Ascii.eqb d c); [done |].
  intros H. by rewrite (IH H).
Qed.

Lemma split_char_several (c : ascii) (s : string) :
  Str.contains_char c s = true -> exists x y ys, split_char c s = x :: y :: ys.
Proof.
  induction s as [| d s IH]; cbn; [done |].
  rewrite Ascii.eqb_sym. destruct (Ascii.eqb d c).
  - intros _. destruct s as [| e s]; [by eexists _, _, _ |].
    cbn. destruct (Ascii.eqb e c); [by eexists _, _, _ |].
    destruct (split_char c s); by eexists _, _, _.
  - intros H. destruct (IH H) as (x & y & ys & ->). by eexists _, _, _.
Qed.

Lemma split_char_last_cons (c d : ascii) (s : string) :
  last (split_char c (String d s))
  = if Ascii.eqb d c || Str.contains_char c s
    then last (split_char c s) else Some (String d s).
Proof.
  cbn. destruct (Ascii.eqb d c); cbn.
  - destruct s as [| e s]; [done |]. cbn.
    destruct (Ascii.eqb e c); [done |]. by destruct (split_char c s).
  - destruct (Str.contains_char c s) eqn:E.
    + by destruct (split_char_several c s E) as (x & y & ys & ->).
    + by rewrite (split_char_single c s E).
Qed.

Lemma contains_char_app (c : ascii) (p s : string) :
  Str.contains_char c (p +:+ String c s) = true.
Proof.
  induction p as [| d p IH].
  - change (EmptyString +:+ String c s) with (String c s).
    cbn. by rewrite Ascii.eqb_refl.
  - change (String d p +:+ String c s) with (String d (p +:+ String c s)).
    cbn. rewrite IH. by destruct (Ascii.eqb c d).
Qed.

(** The last item of [s.split(c)] is what follows the last [c] of [s]. *)
Lemma last_item_after (c : ascii) (p seg : string) :
  Str.contains_char c seg = false ->
  last_item (split_char c (p +:+ String c seg)) = inr seg.
Proof.
  intros Hseg. unfold last_item.
  assert (H : last (split_char c (p +:+ String c seg)) = Some seg);
    [| by rewrite H].
  induction p as [| d p IH].
  - change (EmptyString +:+ String c seg) with (String c seg).
    rewrite split_char_last_cons, Ascii.eqb_refl. cbn.
    by rewrite (split_char_single c seg Hseg).
  - change (String d p +:+ String c seg) with (String d (p +:+ String c seg)).
    rewrite split_char_last_cons, contains_char_app, orb_true_r. exact IH.
Qed.

Lemma last_item_plain (c : ascii) (s : string) :
  Str.contains_char c s = false -> last_item (split_char c s) = inr s.
Proof. intros H. unfold last_item. by rewrite (split_char_single c s H). Qed.

Lemma last_item_no_sep (c : ascii) (s x : string) :
  last_item (split_char c s) = inr x -> Str.contains_char c x = false.
Proof.
  unfold last_item.
  assert (H : forall y, last (split_char c s) = Some y ->
                        Str.contains_char c y = false).
  { induction s as [| d s IH]; intros y.
    - cbn. by intros [= <-].
    - rewrite split_char_last_cons.
      destruct (Ascii.eqb d c) eqn:Ed; cbn [orb]; [apply IH |].
      destruct (Str.contains_char c s) eqn:Es; [apply IH |].
      intros [= <-]. cbn. by rewrite Ascii.eqb_sym, Ed. }
  destruct (last (split_char c s)) as [y|]; [| discriminate].
  intros [= <-]. by apply H.
Qed.

Lemma last_item_total (c : ascii) (s : string) :
  exists x, last_item (split_char c s) = inr x.
Proof.
  unfold last_item. destruct (Str.contains_char c s) eqn:E.
  - destruct (split_char_several c s E) as (x & y & ys & ->).
    destruct (last (x :: y :: ys)) as [z|] eqn:El; [by eexists |].
    by apply last_None in El.
  - rewrite (split_char_single c s E). by eexists.
Qed.

(** X16. Whatever the history and the message id, the id
    [find_linked_message] yields holds no slash, and a message id of 0
    finds nothing. *)
Theorem find_linked_message_key (mod_color : Z)
    (history : list HistoryMessage) (message_id : option Z) :
  (forall key,
     find_linked_message mod_color history message_id = inr (Some key) ->
     Str.contains_char "/" key = false)
  /\ find_linked_message mod_color history (Some 0) = inr None.
Proof.
  split.
  - induction history as [| msg history IH]; intros key; [discriminate |].
    cbn. destruct message_id as [id|].
    + destruct (negb (id =? 0) && (hm_id msg =? id)); [| apply IH].
      destruct (hm_embeds msg) as [| embed embeds]; [discriminate |].
      destruct (last_item _) as [e|linked] eqn:El; [discriminate |].
      intros [= <-]. by eapply last_item_no_sep.
    + destruct (hm_embeds msg) as [| embed embeds]; [apply IH |].
      destruct (he_color embed) as [value|]; [| discriminate].
      destruct (negb (value =? mod_color) || _); [apply IH |].
      destruct (last_item _) as [e|linked] eqn:El; [discriminate |].
      intros [= <-]. by eapply last_item_no_sep.
  - induction history as [| msg history IH]; [done |]. exact IH.
Qed.

Lemma find_linked_message_key_witness :
  find_linked_message 7 history0 None = inr (Some "4711")
  /\ Str.contains_char "/" "4711" = false.
Proof.
  assert (H : find_linked_message 7 history0 None = inr (Some "4711"))
    by reflexivity.
  split; [exact H |].
  apply (proj1 (find_linked_message_key 7 history0 None) "4711" H).
Defined.

(** X17. Without a message id, [find_linked_message] yields what follows
    the last slash of the author url of the latest message whose first
    embed has the colour of staff replies and an author url; with a
    message id other than 0 it yields that part of the author url of the
    first embed of the latest message with that id. *)
Theorem find_linked_message_finds (mod_color : Z)
    (before after : list HistoryMessage) (msg : HistoryMessage)
    (embed : HistoryEmbed) (embeds : list HistoryEmbed) (p key : string) :
  hm_embeds msg = embed :: embeds ->
  he_author_url embed = Some (p +:+ String "/" key) ->
  Str.contains_char "/" key = false ->
  (forallb (passed_over mod_color) before = true ->
   he_color embed = Some mod_color ->
   find_linked_message mod_color (before ++ msg :: after) None
   = inr (Some key))
  /\ (hm_id msg <> 0 ->
      forallb (fun m => negb (hm_id m =? hm_id msg)) before = true ->
      find_linked_message mod_color (before ++ msg :: after)
        (Some (hm_id msg))
      = inr (Some key)).
Proof.
  intros He Hu Hk.
  assert (Htruthy : url_truthy (he_author_url embed) = true).
  { rewrite Hu. cbn. by destruct p. }
  split.
  - intros Hb Hc. induction before as [| m before IH].
    + cbn. rewrite He, Hc, Z.eqb_refl, Htruthy. cbn.
      rewrite Hu. cbn [str_of_url]. by rewrite (last_item_after "/" p key Hk).
    + cbn in Hb. apply andb_true_iff in Hb as [Hm Hb].
      cbn. unfold passed_over in Hm.
      destruct (hm_embeds m) as [| e es]; [by apply IH |].
      destruct (he_color e) as [value|]; [| discriminate].
      rewrite Hm. by apply IH.
  - intros Hid Hb. induction before as [| m before IH].
    + cbn. rewrite Z.eqb_refl. apply Z.eqb_neq in Hid. rewrite Hid. cbn.
      rewrite He, Hu. cbn [str_of_url].
      by rewrite (last_item_after "/" p key Hk).
    + cbn in Hb. apply andb_true_iff in Hb as [Hm Hb].
      cbn. apply negb_true_iff in Hm. rewrite Hm, andb_false_r.
      by apply IH.
Qed.

Lemma find_linked_message_finds_witness :
  find_linked_message 7 history0 None = inr (Some "4711")
  /\ find_linked_message 7 history0 (Some 5) = inr (Some "4700").
Proof.
  split.
  - apply (proj1 (find_linked_message_finds 7
                    [ {| hm_id := 30; hm_embeds := [] |};
                      {| hm_id := 20;
                         hm_embeds :=
                           [{| he_color := Some 5;
                               he_author_url :=
                                 Some "https://discord.com/users/1" |}] |} ]
                    [ {| hm_id := 5;
                         hm_embeds :=
                           [{| he_color := Some 7;
                               he_author_url :=
                                 Some "https://discordapp.com/channels/1/2/4700" |}] |} ]
                    {| hm_id := 10;
                       hm_embeds :=
                         [{| he_color := Some 7;
                             he_author_url :=
                               Some "https://discordapp.com/channels/1/2/4711" |}] |}
                    _ [] "https://discordapp.com/channels/1/2" "4711"
                    eq_refl eq_refl eq_refl));
      reflexivity.
  - apply (proj2 (find_linked_message_finds 7
                    [ {| hm_id := 30; hm_embeds := [] |};
                      {| hm_id := 20;
                         hm_embeds :=
                           [{| he_color := Some 5;
                               he_author_url :=
                                 Some "https://discord.com/users/1" |}] |};
                      {| hm_id := 10;
                         hm_embeds :=
                           [{| he_color := Some 7;
                               he_author_url :=
                                 Some "https://discordapp.com/channels/1/2/4711" |}] |} ]
                    []
                    {| hm_id := 5;
                       hm_embeds :=
                         [{| he_color := Some 7;
                             he_author_url :=
                               Some "https://discordapp.com/channels/1/2/4700" |}] |}
                    _ [] "https://discordapp.com/channels/1/2" "4700"
                    eq_refl eq_refl eq_refl));
      [discriminate | reflexivity].
Defined.

(** X18. [edit] and [delete] never send their [Failed] embed: when
    [find_linked_message] finds nothing they raise [UnboundLocalError] on
    [_], which is a local of both; when it finds a message they edit it in
    the thread and in the log, or delete it, and add the reaction. *)
Theorem edit_delete_outcome (mod_color : Z) (history : list HistoryMessage)
    (message_id : option Z) (message : string) :
  (find_linked_message mod_color history message_id = inr None ->
   edit mod_color history message_id message = inl (UnboundLocalError "_")
   /\ Handler.delete mod_color history message_id
      = inl (UnboundLocalError "_"))
  /\ (forall key,
        find_linked_message mod_color history message_id = inr (Some key) ->
        edit mod_color history message_id message
        = inr [ThreadEditMessage key message; ApiEditMessage key message;
               React]
        /\ Handler.delete mod_color history message_id
           = inr [ThreadDeleteMessage key; React])
  /\ (forall actions e,
        edit mod_color history message_id message = inr actions
        \/ Handler.delete mod_color history message_id = inr actions ->
        SendEmbed e ∉ actions).
Proof.
  unfold edit, Handler.delete.
  destruct (find_linked_message mod_color history message_id)
    as [x | [key|]].
  - split; [done |]. split; [done |]. by intros actions e [H | H].
  - split; [done |]. split; [by intros k [= <-] |].
    intros actions e [[= <-] | [= <-]]; rewrite !not_elem_of_cons;
      repeat split; try discriminate; apply not_elem_of_nil.
  - split; [by intros _ |]. split; [done |]. by intros actions e [H | H].
Qed.

Lemma edit_delete_outcome_witness :
  edit 7 history0 (Some 99) "fixed" = inl (UnboundLocalError "_")
  /\ Handler.delete 7 history0 (Some 10) = inr [ThreadDeleteMessage "4711"; React].
Proof.
  destruct (edit_delete_outcome 7 history0 (Some 99) "fixed")
    as (Hnone & _).
  destruct (edit_delete_outcome 7 history0 (Some 10) "fixed")
    as (_ & Hsome & _).
  split; [apply Hnone; reflexivity | apply (Hsome "4711"); reflexivity].
Defined.

(** X19. [logs delete] always returns after sending one embed, and looks
    at nothing of its argument but what follows the last slash: a link
    to a log and the bare key of the log give the same run. The embed is a
    success embed when the API deleted the entry and an error embed when
    it did not. *)
Theorem logs_delete_key (delete_log_entry : string -> bool)
    (p key : string) (w : World) :
  Str.contains_char "/" key = false ->
  logs_delete delete_log_entry (p +:+ String "/" key) w
  = logs_delete delete_log_entry key w
  /\ returns (logs_delete delete_log_entry key w)
  /\ (delete_log_entry key = true ->
      exists e, sent_only w (logs_delete delete_log_entry key w) e
                /\ success_embed e)
  /\ (delete_log_entry key = false ->
      exists e, sent_only w (logs_delete delete_log_entry key w) e
                /\ error_embed e).
Proof.
  intros Hk. unfold logs_delete, returns, sent_only, success_embed,
    error_embed.
  rewrite (last_item_after "/" p key Hk), (last_item_plain "/" key Hk).
  split; [reflexivity |]. run. cbn.
  destruct (delete_log_entry key); cbn;
    (split; [by eexists |]); split; intros H; try discriminate; finish.
Qed.

Lemma logs_delete_key_witness :
  logs_delete (fun k => String.eqb k "abc123")
    "https://logs.example.com/logs/abc123" (world_of config0)
  = logs_delete (fun k => String.eqb k "abc123") "abc123" (world_of config0).
Proof.
  apply (logs_delete_key (fun k => String.eqb k "abc123")
           "https://logs.example.com/logs" "abc123" (world_of config0)).
  reflexivity.
Defined.

(** ** [move] *)



(** ** [snippet] *)

Lemma grouper_go_concat {A} (n : nat) (l : list A) :
  forall (cur : list (option A)) (room : nat),
    (0 < n)%nat -> (length cur + room = n)%nat ->
    exists pad,
      (pad < n)%nat
      /\ concat (grouper_go n l cur room)
         = (cur ++ (Some <$> l) ++ replicate pad None)%list.
Proof.
  induction l as [| x l IH]; intros cur room Hn Hlen.
  - destruct cur as [| c cur]; cbn [grouper_go].
    + exists 0%nat. by split.
    + exists room. cbn in Hlen. split; [lia |]. cbn [concat fmap list_fmap].
      by rewrite app_nil_r.
  - destruct room as [| room]; cbn [grouper_go].
    + destruct (IH [Some x] (pred n) Hn) as (pad & Hpad & Hc); [cbn; lia |].
      exists pad. split; [done |]. cbn [concat]. rewrite Hc. reflexivity.
    + destruct (IH (cur ++ [Some x])%list room Hn) as (pad & Hpad & Hc).
      { rewrite length_app. cbn. lia. }
      exists pad. split; [done |]. rewrite Hc. by rewrite <- app_assoc.
Qed.

Lemma grouper_go_lengths {A} (n : nat) (l : list A) :
  forall (cur : list (option A)) (room : nat),
    (0 < n)%nat -> (length cur + room = n)%nat ->
    Forall (fun names => length names = n) (grouper_go n l cur room).
Proof.
  induction l as [| x l IH]; intros cur room Hn Hlen.
  - destruct cur as [| c cur]; cbn [grouper_go]; [constructor |].
    apply Forall_cons. split; [| constructor].
    rewrite length_app, length_replicate. exact Hlen.
  - destruct room as [| room]; cbn [grouper_go].
    + constructor; [lia |]. apply IH; [done |]. cbn. lia.
    + apply IH; [done |]. rewrite length_app. cbn. lia.
Qed.

Lemma snippet_pages_run (format_description : nat -> list (option string) -> string)
    (icon_url : string) (tuples : list (list (option string))) :
  forall i,
  exists pages,
    snippet_pages format_description icon_url snippet_frame i tuples
    = inr pages
    /\ le_description <$> pages
       = imap (fun j => format_description (i + j)%nat) tuples
    /\ length pages = length tuples.
Proof.
  induction tuples as [| names tuples IH]; intros i.
  - by exists [].
  - destruct (IH (S i)) as (pages & Hp & Hd & Hl).
    eexists. cbn. rewrite Hp. split; [reflexivity |]. cbn.
    rewrite Hd, Hl, Nat.add_0_r. split; [| done]. f_equal.
    apply imap_ext. intros j names' _. cbn. f_equal. lia.
Qed.

(** X21. Without a name and with at least one snippet, [snippet] sends
    pages made from the names of all snippets, each once and in the order
    of [str]: page [i] is described by [format_description] of [i] and its
    tuple of 15 entries, and the tuples one after the other are the sorted
    names followed by fewer than 15 [None]. *)
Theorem snippet_lists_every_name (escape_mentions : string -> string)
    (format_description : nat -> list (option string) -> string)
    (icon_url : string) (w : World) :
  snippets (config w) <> ∅ ->
  exists pages tuples names pad,
    snippet escape_mentions format_description icon_url None w
    = inr (ReplyPages pages)
    /\ le_description <$> pages = imap format_description tuples
    /\ Forall (fun t => length t = 15%nat) tuples
    /\ concat tuples = ((Some <$> names) ++ replicate pad None)%list
    /\ (pad < 15)%nat
    /\ (15 * length pages = size (snippets (config w)) + pad)%nat
    /\ Sorted String.le names
    /\ NoDup names
    /\ (forall n, n ∈ names <-> is_Some (snippets (config w) !! n)).
Proof.
  intros Hne. unfold snippet. destruct (decide _) as [He | _]; [done |].
  set (names := sorted_keys (snippets (config w))).
  destruct (snippet_pages_run format_description icon_url
              (grouper 15 names) 0) as (pages & -> & Hd & Hl).
  destruct (grouper_go_concat 15 names [] 15) as (pad & Hpad & Hc);
    [lia | reflexivity |].
  assert (Hperm : names ≡ₚ elements (dom (snippets (config w))))
    by apply merge_sort_Permutation.
  exists pages, (grouper 15 names), names, pad.
  split; [reflexivity |]. split; [exact Hd |].
  assert (Hf : Forall (fun t : list (option string) => length t = 15%nat)
                 (grouper 15 names))
    by (apply grouper_go_lengths; [lia | reflexivity]).
  split; [exact Hf |]. split; [exact Hc |]. split; [exact Hpad |].
  split.
  - rewrite Hl.
    assert (Hsum : length (concat (grouper 15 names))
                   = (15 * length (grouper 15 names))%nat).
    { clear -Hf. induction Hf as [| t ts Ht _ IH]; [done |].
      cbn [concat]. rewrite length_app, Ht, IH. cbn [length]. lia. }
    rewrite <- Hsum. unfold grouper. rewrite Hc. cbn [app].
    rewrite length_app, length_fmap, length_replicate, Hperm.
    by rewrite <- size_dom.
  - split; [apply Sorted_merge_sort; apply _ |].
    split; [rewrite Hperm; apply NoDup_elements |].
    intros n. rewrite Hperm, elem_of_elements. apply elem_of_dom.
Qed.

Lemma snippet_lists_every_name_witness :
  exists pages,
    snippet (fun s => s) (fun i names => String.concat ", " (omap id names))
      EmptyString None (world_of config_two_snippets)
    = inr (ReplyPages pages)
    /\ le_description <$> pages = ["bye, hi"].
Proof.
  destruct (snippet_lists_every_name (fun s => s)
              (fun i names => String.concat ", " (omap id names))
              EmptyString (world_of config_two_snippets))
    as (pages & tuples & names & pad & Hs & _).
  - intros H. apply (f_equal (fun m : gmap string string => m !! "hi")) in H.
    cbn in H. rewrite lookup_insert_eq in H. discriminate H.
  - exists pages. split; [exact Hs |].
    vm_compute in Hs. injection Hs as <-. reflexivity.
Defined.

(** X22. A snippet can be read back: after [snippet_add] of a name that
    is neither a snippet nor an alias and has at most 120 characters,
    [snippet] with that name sends the stored text through
    [escape_mentions]; after [snippet_remove] of a snippet, [snippet] with
    its name sends the not-found embed. *)
Theorem snippet_shows_what_is_stored (escape_mentions : string -> string)
    (format_description : nat -> list (option string) -> string)
    (icon_url : string) (n v : string) (w : World) :
  (snippets (config w) !! n = None ->
   aliases (config w) !! n = None ->
   (String.length n <= 120)%nat ->
   snippet escape_mentions format_description icon_url (Some n)
     (snippet_add n v w).2
   = inr (ReplyText (escape_mentions v)))
  /\ (is_Some (snippets (config w) !! n) ->
      snippet escape_mentions format_description icon_url (Some n)
        (snippet_remove n w).2
      = inr (ReplyNotFound n (dom (delete n (snippets (config w))))
               "Snippet")).
Proof.
  split.
  - intros Hs Ha Hl. rewrite (snippet_add_fresh n v w Hs Ha Hl).
    unfold snippet. cbn. by rewrite lookup_insert_eq.
  - intros Hs. rewrite (snippet_remove_present n w Hs).
    unfold snippet. cbn. by rewrite lookup_delete_eq.
Qed.

Lemma snippet_shows_what_is_stored_witness :
  snippet (fun s => s) (fun _ _ => EmptyString) EmptyString (Some "hi")
    (snippet_add "hi" "hello" (world_of config0)).2
  = inr (ReplyText "hello")
  /\ snippet (fun s => s) (fun _ _ => EmptyString) EmptyString (Some "hi")
       (snippet_remove "hi" (world_of config_two_snippets)).2
     = inr (ReplyNotFound "hi" (dom (delete "hi" (snippets config_two_snippets)))
              "Snippet").
Proof.
  destruct (snippet_shows_what_is_stored (fun s => s)
              (fun _ _ => EmptyString) EmptyString "hi" "hello"
              (world_of config0)) as (Hadd & _).
  destruct (snippet_shows_what_is_stored (fun s => s)
              (fun _ _ => EmptyString) EmptyString "hi" "hello"
              (world_of config_two_snippets)) as (_ & Hrem).
  split.
  - apply Hadd; [reflexivity | reflexivity | cbn; lia].
  - apply Hrem. exists "hello". cbn. apply lookup_insert_eq.
Defined.

(** ** [logs] *)

Section LogsFacts.

Context {Time Msg : Type}.
Variable parse : string -> exn + Time.
Variable duration : Time -> string.
Variable format_preview : list Msg -> string.
Variables log_url_prefix log_url_base : string.

Lemma format_log_embed_run (title avatar_url : string) (entry : LogEntry Msg)
    (created : Time) :
  parse (created_at entry) = inr created ->
  exists embed,
    format_log_embed Time Msg parse duration format_preview log_url_prefix
      log_url_base format_log_embeds_frame title avatar_url entry
    = inr embed
    /\ lg_author_name embed
       = title +:+ " - "
         +:+ (lu_name (recipient entry) +:+ "#")
         +:+ lu_discriminator (recipient entry)
    /\ lg_footer embed = "Recipient ID: " +:+ lu_id (recipient entry)
    /\ lg_timestamp embed = created.
Proof.
  intros Hp. unfold format_log_embed. rewrite Hp.
  destruct (closer entry);
    destruct (negb (String.eqb (lu_id (recipient entry))
                               (lu_id (creator entry))));
    eexists; (split; [reflexivity |]); by repeat split.
Qed.

Lemma format_log_embeds_loop_run (title avatar_url : string)
    (entries : list (LogEntry Msg)) :
  Forall (fun e => exists t, parse (created_at e) = inr t) entries ->
  exists embeds,
    format_log_embeds_loop Time Msg parse duration format_preview
      log_url_prefix log_url_base format_log_embeds_frame title avatar_url
      entries
    = inr embeds
    /\ lg_author_name <$> embeds
       = (fun e => title +:+ " - " +:+ (lu_name (recipient e) +:+ "#")
                   +:+ lu_discriminator (recipient e)) <$> entries
    /\ lg_footer <$> embeds
       = (fun e => "Recipient ID: " +:+ lu_id (recipient e)) <$> entries.
Proof.
  induction 1 as [| entry entries [t Ht] _ (embeds & IH & Hn & Hf)].
  - by exists [].
  - destruct (format_log_embed_run title avatar_url entry t Ht)
      as (embed & He & Hname & Hfoot & _).
    exists (embed :: embeds). cbn. rewrite He, IH.
    split; [reflexivity |]. by rewrite Hn, Hf, Hname, Hfoot.
Qed.

End LogsFacts.

Lemma existsb_closed_filter {Msg} (entries : list (LogEntry Msg)) :
  existsb (fun log => negb (is_open log)) entries = false
  <-> List.filter (fun e => negb (is_open e)) entries = [].
Proof.
  induction entries as [| e entries IH]; cbn; [done |].
  destruct (negb (is_open e)); cbn; [by split | exact IH].
Qed.

(** X23. [logs] shows the closed threads of the user and nothing else:
    when the API has no closed log of the user it sends the embed that
    says so; otherwise, when the dates of the closed logs parse, it hands
    the paginator one embed for each closed log, in the reverse of the
    order of the API, each with the id of the recipient in the footer and
    the number of closed logs in the name of the author. *)
Theorem logs_shows_closed_logs {Time Msg : Type}
    (parse : string -> exn + Time) (duration : Time -> string)
    (format_preview : list Msg -> string) (log_url_prefix log_url_base : string)
    (avatar_url_of : UserLike -> option string)
    (get_user_logs : Z -> list (LogEntry Msg))
    (ctx : Ctx) (user : option UserLike) (u : UserLike) :
  target ctx user = Some u ->
  (List.filter (fun e => negb (is_open e)) (get_user_logs (u_id u)) = [] ->
   logs Time Msg parse duration format_preview log_url_prefix log_url_base
     avatar_url_of get_user_logs ctx user
   = inr (NoLogs (mk_embed None error_color
                    "This user does not have any previous logs.")))
  /\ (List.filter (fun e => negb (is_open e)) (get_user_logs (u_id u)) <> [] ->
      Forall (fun e => exists t, parse (created_at e) = inr t)
        (List.filter (fun e => negb (is_open e)) (get_user_logs (u_id u))) ->
      exists embeds,
        logs Time Msg parse duration format_preview log_url_prefix
          log_url_base avatar_url_of get_user_logs ctx user
        = inr (LogPages embeds)
        /\ lg_footer <$> embeds
           = (fun e => "Recipient ID: " +:+ lu_id (recipient e))
             <$> rev (List.filter (fun e => negb (is_open e))
                        (get_user_logs (u_id u)))
        /\ lg_author_name <$> embeds
           = (fun e =>
                ("Total Results Found ("
                 +:+ str_of_len (List.filter (fun e => negb (is_open e))
                                   (get_user_logs (u_id u)))
                 +:+ ")")
                +:+ " - " +:+ (lu_name (recipient e) +:+ "#")
                +:+ lu_discriminator (recipient e))
             <$> rev (List.filter (fun e => negb (is_open e))
                        (get_user_logs (u_id u)))).
Proof.
  unfold target. intros Ht. unfold logs. rewrite Ht.
  split.
  - intros Hnone. apply existsb_closed_filter in Hnone. by rewrite Hnone.
  - intros Hsome Hparse.
    destruct (existsb _ (get_user_logs (u_id u))) eqn:He;
      [| by apply existsb_closed_filter in He].
    cbn [negb]. unfold format_log_embeds.
    destruct (format_log_embeds_loop_run parse duration format_preview
                log_url_prefix log_url_base
                ("Total Results Found ("
                 +:+ str_of_len (rev (List.filter (fun e => negb (is_open e))
                                        (get_user_logs (u_id u))))
                 +:+ ")")
                (default "https://cdn.discordapp.com/embed/avatars/0.png"
                   (avatar_url_of u))
                (rev (List.filter (fun e => negb (is_open e))
                        (get_user_logs (u_id u)))))
      as (embeds & Hrun & Hn & Hf).
    { apply Forall_forall. intros e Hin.
      apply list_elem_of_In, in_rev, list_elem_of_In in Hin.
      exact (proj1 (Forall_forall _ _) Hparse e Hin). }
    exists embeds. rewrite Hrun. split; [reflexivity |]. split; [exact Hf |].
    rewrite Hn. unfold str_of_len. by rewrite length_rev.
Qed.

Lemma logs_shows_closed_logs_witness :
  exists embeds,
    logs string string (fun s => inr s) (fun t => t) (fun _ => EmptyString)
      "NONE" "https://logs.example.com/" (fun _ => None) (fun _ => logs0)
      ctx1 None
    = inr (LogPages embeds)
    /\ lg_author_name <$> embeds
       = ["Total Results Found (2) - ann#0042";
          "Total Results Found (2) - ann#0042"]
    /\ lg_url <$> embeds
       = ["https://logs.example.com/c3"; "https://logs.example.com/a1"].
Proof.
  destruct (logs_shows_closed_logs (fun s : string => @inr exn string s)
              (fun t => t) (fun _ : list string => EmptyString)
              "NONE" "https://logs.example.com/" (fun _ => None)
              (fun _ => logs0) ctx1 None (of_member member1) eq_refl)
    as (_ & Hsome).
  destruct Hsome as (embeds & Hl & _ & Hn).
  - discriminate.
  - repeat constructor; by eexists.
  - exists embeds. split; [exact Hl |]. split; [rewrite Hn; reflexivity |].
    vm_compute in Hl. injection Hl as <-. reflexivity.
Defined.

(** ** [unblock], the two paths that answer *)

Lemma get_pop_ne (k k' : string) (d : Dict.t) :
  k <> k' -> Dict.get k (Dict.pop k' d) = Dict.get k d.
Proof.
  intros Hne. apply String.eqb_neq in Hne.
  induction d as [| [k0 v0] d IH]; cbn; [done |].
  destruct (String.eqb k' k0) eqn:E; cbn.
  - apply String.eqb_eq in E. subst k0. by rewrite Hne.
  - by rewrite IH.
Qed.

(** X24. [unblock] of a user who is not blocked returns after sending one
    error embed and leaves the configuration as it was. [unblock] of a
    user blocked with a reason that does not start with
    [System Message: ] returns with the user no longer a key of the
    blocked users, every other entry as it was, the configuration stored
    and one success embed sent. *)
Theorem unblock_unblocks (ctx : Ctx) (user : option UserLike) (w : World)
    (u : UserLike) :
  target ctx user = Some u ->
  (Dict.mem (user_key u) (blocked_users (config w)) = false ->
   returns (unblock ctx user w)
   /\ config (unblock ctx user w).2 = config w
   /\ saved (unblock ctx user w).2 = saved w
   /\ exists e, sent_only w (unblock ctx user w) e /\ error_embed e)
  /\ (forall msg,
        Dict.get (user_key u) (blocked_users (config w)) = Some msg ->
        Str.startswith "System Message: " msg = false ->
        returns (unblock ctx user w)
        /\ Dict.mem (user_key u)
             (blocked_users (config (unblock ctx user w).2)) = false
        /\ (forall k, k <> user_key u ->
              Dict.get k (blocked_users (config (unblock ctx user w).2))
              = Dict.get k (blocked_users (config w)))
        /\ persisted (unblock ctx user w)
        /\ exists e, sent_only w (unblock ctx user w) e /\ success_embed e).
Proof.
  intros Ht. split.
  - intros Hm. rewrite (unblock_not_blocked ctx user w u Ht Hm).
    unfold returns, sent_only, error_embed. cbn. finish.
  - intros msg Hg Hs. rewrite (unblock_blocked ctx user w u msg Ht Hg Hs).
    unfold returns, persisted, sent_only, success_embed. cbn.
    split; [by eexists |].
    split; [by rewrite mem_pop, String.eqb_refl |].
    split; [intros k Hk; by apply get_pop_ne |].
    split; [done |]. eauto.
Qed.

Lemma unblock_unblocks_witness :
  blocked_users (config (unblock ctx1 None (world_of config_blocked9)).2)
  = [("9", "by mod#0001.")]
  /\ Dict.mem "9"
       (blocked_users
          (config (unblock ctx1 (Some user9) (world_of config_blocked9)).2))
     = false.
Proof.
  destruct (unblock_unblocks ctx1 None (world_of config_blocked9)
              (of_member member1) eq_refl) as (Hnot & _).
  destruct (unblock_unblocks ctx1 (Some user9) (world_of config_blocked9)
              user9 eq_refl) as (_ & Hyes).
  split.
  - destruct (Hnot eq_refl) as (_ & Hc & _). by rewrite Hc.
  - destruct (Hyes "by mod#0001." eq_refl eq_refl) as (_ & Hm & _).
    exact Hm.
Defined.
